(** * conceitos-do-nodejs: the in-memory to-do service of [src/index.js]

    A shallow embedding of the Express application: the [users] array, the
    [checksExistsUserAccount] middleware and the six route handlers, followed
    by the properties of the service that the specification states.

    The handlers mutate shared objects ([user.todo] aliases an element of
    [user.todos]), so [Todo] objects live in a heap and arrays hold
    references.  What the handlers take from outside, the result of
    [uuidv4()] and the clock, is an input of each request. *)

From Stdlib Require Import Floats.
From stdpp Require Import base numbers strings option list.

Set Warnings "-clear-no-such-hyp,-register-all".

(** ** JavaScript values *)

(** Objects are handled by reference; a reference is the allocation number of
    the object. *)
Abbreviation loc := nat (only parsing).

(** What a field of a parsed JSON body, or a header, can hold.  A numeric field
    is an IEEE-754 double; an array or an object is a reference [r] to what
    the JSON text listed: the elements, or the own properties by key. *)
Inductive value :=
  | Undefined
  | Null
  | Boolean (b : bool)
  | Number (x : float)
  | Str (s : string)
  | Array (r : loc) (elements : list value)
  | Object (r : loc) (fields : list (string * value)).

(** [a === b] on such values: same type and same primitive value, doubles by
    IEEE equality, objects by identity. *)
Definition strict_eq (a b : value) : bool :=
  match a, b with
  | Undefined, Undefined => true
  | Null, Null => true
  | Boolean x, Boolean y => bool_decide (x = y)
  | Number x, Number y => PrimFloat.eqb x y
  | Str x, Str y => bool_decide (x = y)
  | Array x _, Array y _ => bool_decide (x = y)
  | Object x _, Object y _ => bool_decide (x = y)
  | _, _ => false
  end.

(** Whether converting [v] to a primitive throws a [TypeError].  A parsed
    JSON object converts through [Object.prototype.toString] unless it has an
    own property [toString], which holds no function; then nothing is left to
    call.  An array converts through [join], which converts its elements. *)
Fixpoint to_primitive_throws (v : value) : bool :=
  match v with
  | Array _ elements => existsb to_primitive_throws elements
  | Object _ fields =>
      existsb (λ field, bool_decide (field.1 = "toString")) fields
  | _ => false
  end.

(** [Date] objects are kept symbolic: [new Date(v)] remembers the argument it
    was built from, [new Date()] the clock reading it captured. *)
Inductive Date :=
  | DateOf (v : value)
  | DateNow (clock : Z).

(** [new Date(v)]: the constructor converts an array or an object to a
    primitive first; [None] is the [TypeError] of that conversion. *)
Definition new_Date (v : value) : option Date :=
  if to_primitive_throws v then None else Some (DateOf v).

(** ** Array methods used by the handlers *)

Module Array.
Section Methods.
Context {A : Type}.

(** Position of the first element satisfying [p]. *)
Definition find_pos (p : A → bool) (l : list A) : option nat :=
  fst <$> list_find (λ x, Is_true (p x)) l.

(** [l.find(p)]: the first element satisfying [p], or [undefined]. *)
Definition find (p : A → bool) (l : list A) : option A :=
  snd <$> list_find (λ x, Is_true (p x)) l.

(** [l.findIndex(p)]: the position of that element, or [-1]. *)
Definition findIndex (p : A → bool) (l : list A) : Z :=
  from_option Z.of_nat (-1)%Z (find_pos p l).

(** [l.push(x)]. *)
Definition push (x : A) (l : list A) : list A := l ++ [x].

(** The array left by [l.splice(start, deleteCount)]: a negative [start]
    counts from the end, and both arguments are clamped to the array. *)
Definition splice (start deleteCount : Z) (l : list A) : list A :=
  let len := Z.of_nat (length l) in
  let actualStart :=
    if bool_decide (start < 0)%Z then Z.max (len + start) 0
    else Z.min start len in
  let actualDeleteCount := Z.min (Z.max deleteCount 0) (len - actualStart) in
  take (Z.to_nat actualStart) l
    ++ drop (Z.to_nat (actualStart + actualDeleteCount)) l.
End Methods.
End Array.

(** ** The data model *)

Module Todo.
Record t := mk {
  id : string;
  title : value;
  done : bool;
  deadline : Date;
  created_at : Date;
}.

(** [todo.title = v], [todo.deadline = d] and [todo.done = b]. *)
Definition set_title (v : value) (x : t) : t :=
  mk (id x) v (done x) (deadline x) (created_at x).
Definition set_deadline (d : Date) (x : t) : t :=
  mk (id x) (title x) (done x) d (created_at x).
Definition set_done (b : bool) (x : t) : t :=
  mk (id x) (title x) b (deadline x) (created_at x).
End Todo.

Module User.
(** [todos] holds references to [Todo] objects.  The property [todo] does not
    exist on a new user ([None]); once assigned it holds [undefined]
    ([Some None]) or a reference to a [Todo] ([Some (Some l)]). *)
Record t := mk {
  id : string;
  name : value;
  username : value;
  todos : list loc;
  todo : option (option loc);
}.

Definition set_todos (l : list loc) (x : t) : t :=
  mk (id x) (name x) (username x) l (todo x).
Definition set_todo (r : option loc) (x : t) : t :=
  mk (id x) (name x) (username x) (todos x) (Some r).
End User.

(** The program state: the module-level array [users] and the [Todo] objects
    allocated so far.  [users] only ever grows by [push], so a [User] object is
    identified by its position in it; a [Todo] object by its position in
    [heap]. *)
Record State := mkState {
  users : list User.t;
  heap : list Todo.t;
}.

Definition init : State := mkState [] [].

(** What the environment supplies while one request is served: the string the
    call [uuidv4()] returns and the clock read by [new Date()]. *)
Record Env := mkEnv {
  uuidv4 : string;
  now : Z;
}.

(** ** Requests and responses *)

Module Headers.
(** [request.headers.username]: a string, or [None] when the header is not
    sent. *)
Record t := mk { username : option string }.
End Headers.

Module Body.
(** The fields the handlers read from [request.body]; a field the body does
    not have reads as [Undefined]. *)
Record t := mk {
  name : value;
  username : value;
  title : value;
  deadline : value;
}.
End Body.

Module Params.
Record t := mk { id : string }.
End Params.

Module Request.
(** [user] is the property the middleware adds: the resolved [User]. *)
Record t := mk {
  headers : Headers.t;
  body : Body.t;
  params : Params.t;
  user : option nat;
}.

Definition set_user (u : nat) (r : t) : t :=
  mk (headers r) (body r) (params r) (Some u).
End Request.

Module Response.
(** What [json] is given: [{ error: message }], a user, an array of [Todo]s
    or a [Todo] as they are when the answer is sent, or nothing.
    [error_page] is what Express sends by itself when a handler throws. *)
Inductive payload :=
  | error (message : string)
  | user (u : User.t)
  | todo_list (l : list Todo.t)
  | todo (x : Todo.t)
  | empty
  | error_page.

Record t := mk { status : nat; body : payload }.

(** [response.json(b)] answers with status 200 unless [status] was called. *)
Definition json (b : payload) : t := mk 200 b.
End Response.

(** The value a header reads as. *)
Definition header_value (h : option string) : value :=
  match h with
  | Some s => Str s
  | None => Undefined
  end.

(** [todo => todo.id === id], on a reference into [h]. *)
Definition has_id (h : list Todo.t) (id : string) (l : loc) : bool :=
  match h !! l with
  | Some x => bool_decide (Todo.id x = id)
  | None => false
  end.

Definition set_users (us : list User.t) (s : State) : State :=
  mkState us (heap s).
Definition set_heap (h : list Todo.t) (s : State) : State :=
  mkState (users s) h.

(** A handler answers a request in a state.  When [new Date] throws, the
    handler stops there: the state is the one reached at the throw and
    Express answers for it with [uncaught].  [None] stands for reading
    [request.user] before the middleware has set it, or through a reference
    to no object; no run produces either. *)
Definition Handler := Request.t → State → option (State * Response.t).

(** The answer of Express to an exception no handler catches. *)
Definition uncaught : Response.t := Response.mk 500 Response.error_page.

(** ** The middleware *)

(** [users.find] yields a [User] object, here its position in [users];
    [next()] continues with the handler registered after the middleware. *)
Definition checksExistsUserAccount (request : Request.t) (next : Handler)
    : State → option (State * Response.t) := λ s,
  let username := header_value (Headers.username (Request.headers request)) in
  let user :=
    Array.find_pos (λ user, strict_eq (User.username user) username) (users s) in
  match user with
  | None =>
      Some (s, Response.mk 400 (Response.error "Usuário não encontrado!"))
  | Some user => next (Request.set_user user request) s
  end.

(** ** The route handlers *)

(** [app.post('/users', ...)] *)
Definition post_users (env : Env) : Handler := λ request s,
  let name := Body.name (Request.body request) in
  let username := Body.username (Request.body request) in
  let usernameAlreadyExists :=
    Array.find (λ user, strict_eq (User.username user) username) (users s) in
  match usernameAlreadyExists with
  | Some _ =>
      Some (s, Response.mk 400 (Response.error "Usuário já cadastrado!"))
  | None =>
      let user := User.mk (uuidv4 env) name username [] None in
      Some (set_users (Array.push user (users s)) s,
            Response.mk 201 (Response.user user))
  end.

(** [app.get('/todos', checksExistsUserAccount, ...)] *)
Definition get_todos (env : Env) : Handler := λ request s,
  u ← Request.user request;
  user ← users s !! u;
  todos ← mapM (λ l, heap s !! l) (User.todos user);
  Some (s, Response.json (Response.todo_list todos)).

(** [app.post('/todos', checksExistsUserAccount, ...)] *)
Definition post_todos (env : Env) : Handler := λ request s,
  u ← Request.user request;
  user ← users s !! u;
  let title := Body.title (Request.body request) in
  let deadline := Body.deadline (Request.body request) in
  match new_Date deadline with
  | None => Some (s, uncaught)
  | Some deadline =>
      let todo :=
        Todo.mk (uuidv4 env) title false deadline (DateNow (now env)) in
      let l := length (heap s) in
      let s := set_heap (heap s ++ [todo]) s in
      let user := User.set_todos (Array.push l (User.todos user)) user in
      let s := set_users (<[u := user]> (users s)) s in
      Some (s, Response.mk 201 (Response.todo todo))
  end.

(** [app.put('/todos/:id', checksExistsUserAccount, ...)] *)
Definition put_todos (env : Env) : Handler := λ request s,
  u ← Request.user request;
  user ← users s !! u;
  let title := Body.title (Request.body request) in
  let deadline := Body.deadline (Request.body request) in
  let id := Params.id (Request.params request) in
  let todo := Array.find (has_id (heap s) id) (User.todos user) in
  let s := set_users (<[u := User.set_todo todo user]> (users s)) s in
  match todo with
  | None => Some (s, Response.mk 404 (Response.error "TODO não encontrado!"))
  | Some l =>
      x ← heap s !! l;
      let x := Todo.set_title title x in
      let s := set_heap (<[l := x]> (heap s)) s in
      match new_Date deadline with
      | None => Some (s, uncaught)
      | Some deadline =>
          let x := Todo.set_deadline deadline x in
          Some (set_heap (<[l := x]> (heap s)) s,
                Response.json (Response.todo x))
      end
  end.

(** [app.patch('/todos/:id/done', checksExistsUserAccount, ...)] *)
Definition patch_todos_done (env : Env) : Handler := λ request s,
  u ← Request.user request;
  user ← users s !! u;
  let id := Params.id (Request.params request) in
  let todo := Array.find (has_id (heap s) id) (User.todos user) in
  let s := set_users (<[u := User.set_todo todo user]> (users s)) s in
  match todo with
  | None => Some (s, Response.mk 404 (Response.error "TODO não encontrado!"))
  | Some l =>
      x ← heap s !! l;
      let x := Todo.set_done true x in
      Some (set_heap (<[l := x]> (heap s)) s, Response.json (Response.todo x))
  end.

(** [app.delete('/todos/:id', checksExistsUserAccount, ...)] *)
Definition delete_todos (env : Env) : Handler := λ request s,
  u ← Request.user request;
  user ← users s !! u;
  let id := Params.id (Request.params request) in
  let todoIndex := Array.findIndex (has_id (heap s) id) (User.todos user) in
  if bool_decide (todoIndex = (-1)%Z) then
    Some (s, Response.mk 404 (Response.error "TODO não encontrado!"))
  else
    let user := User.set_todos (Array.splice todoIndex 1 (User.todos user)) user in
    Some (set_users (<[u := user]> (users s)) s, Response.mk 204 Response.empty).

(** ** The router *)

Inductive Route :=
  | POST_users
  | GET_todos
  | POST_todos
  | PUT_todos
  | PATCH_todos_done
  | DELETE_todos.

Definition app (route : Route) (env : Env) : Handler := λ request,
  match route with
  | POST_users => post_users env request
  | GET_todos => checksExistsUserAccount request (get_todos env)
  | POST_todos => checksExistsUserAccount request (post_todos env)
  | PUT_todos => checksExistsUserAccount request (put_todos env)
  | PATCH_todos_done => checksExistsUserAccount request (patch_todos_done env)
  | DELETE_todos => checksExistsUserAccount request (delete_todos env)
  end.

(** ** Runs of the service *)

(** One served request: the route it matched, what the environment supplied
    while it was served, and the request itself. *)
Record Event := mkEvent {
  route : Route;
  env : Env;
  request : Request.t;
}.

(** The state after an event: the one the handler left, also when it
    threw. *)
Definition step (s : State) (e : Event) : State :=
  match app (route e) (env e) (request e) s with
  | Some (s', _) => s'
  | None => s
  end.

Definition run (s : State) (es : list Event) : State := foldl step s es.

Definition reachable (s : State) : Prop := ∃ es, run init es = s.

(** The identifiers the environment supplied during a run. *)
Definition uuids (es : list Event) : list string := (uuidv4 ∘ env) <$> es.

(** ** Vocabulary of the specification *)

(** The user a request's [username] header resolves to. *)
Definition resolve (request : Request.t) (s : State) : option nat :=
  Array.find_pos
    (λ user, strict_eq (User.username user)
               (header_value (Headers.username (Request.headers request))))
    (users s).

(** The contents of the [todos] array of user [u], in stored order. *)
Definition todos_of (s : State) (u : nat) : option (list Todo.t) :=
  user ← users s !! u;
  mapM (λ l, heap s !! l) (User.todos user).

(** The routes guarded by the middleware. *)
Definition todo_route (r : Route) : bool :=
  match r with
  | POST_users => false
  | _ => true
  end.

(** The handler registered behind the middleware on each guarded route. *)
Definition downstream (route : Route) (env : Env) : Handler :=
  match route with
  | POST_users => post_users env
  | GET_todos => get_todos env
  | POST_todos => post_todos env
  | PUT_todos => put_todos env
  | PATCH_todos_done => patch_todos_done env
  | DELETE_todos => delete_todos env
  end.

Definition user_not_found : Response.t :=
  Response.mk 400 (Response.error "Usuário não encontrado!").
Definition user_exists : Response.t :=
  Response.mk 400 (Response.error "Usuário já cadastrado!").
Definition todo_not_found : Response.t :=
  Response.mk 404 (Response.error "TODO não encontrado!").

(** An identifier is absent from a user's [todos] when no [Todo] the array
    refers to carries it. *)
Definition id_absent (s : State) (user : User.t) (id : string) : Prop :=
  ∀ l x, l ∈ User.todos user → heap s !! l = Some x → Todo.id x ≠ id.

(** It is present at position [k] when [k] is the first position whose [Todo]
    carries it. *)
Definition id_first_at (s : State) (user : User.t) (id : string)
    (k : nat) (l : loc) (x : Todo.t) : Prop :=
  User.todos user !! k = Some l ∧ heap s !! l = Some x ∧ Todo.id x = id
  ∧ ∀ j l' y, j < k → User.todos user !! j = Some l' →
      heap s !! l' = Some y → Todo.id y ≠ id.

(** [user] written back at position [u] of [users]. *)
Definition with_user (u : nat) (user : User.t) (s : State) : State :=
  set_users (<[u := user]> (users s)) s.

(** The [User] that [POST /users] builds. *)
Definition new_user (env : Env) (request : Request.t) : User.t :=
  User.mk (uuidv4 env) (Body.name (Request.body request))
    (Body.username (Request.body request)) [] None.

(** The [Todo] that [POST /todos] builds. *)
Definition new_todo (env : Env) (request : Request.t) : Todo.t :=
  Todo.mk (uuidv4 env) (Body.title (Request.body request)) false
    (DateOf (Body.deadline (Request.body request))) (DateNow (now env)).

(** The [Todo] that [PUT /todos/:id] leaves in place of [x]. *)
Definition updated (request : Request.t) (x : Todo.t) : Todo.t :=
  Todo.set_deadline (DateOf (Body.deadline (Request.body request)))
    (Todo.set_title (Body.title (Request.body request)) x).

(** The [Todo] it leaves when [new Date] throws: only the title is assigned. *)
Definition retitled (request : Request.t) (x : Todo.t) : Todo.t :=
  Todo.set_title (Body.title (Request.body request)) x.

(** Whether [new Date(deadline)] throws on the body of a request. *)
Definition deadline_throws (request : Request.t) : bool :=
  to_primitive_throws (Body.deadline (Request.body request)).

(** The [Todo] that [PUT /todos/:id] leaves in place of [x] in either case. *)
Definition put_leaves (request : Request.t) (x : Todo.t) : Todo.t :=
  if deadline_throws request then retitled request x else updated request x.

(** Whether the handler of a route meets a [new Date(deadline)] that throws:
    [POST /todos] builds the date for every resolved user, [PUT /todos/:id]
    once it has found the [Todo]; the other handlers build no such date. *)
Definition date_throws (route : Route) (request : Request.t) : bool :=
  match route with
  | POST_todos | PUT_todos => deadline_throws request
  | _ => false
  end.

(** The [Todo]s that a series of [POST /todos] requests creates, in the order
    of the requests: one for each request on which [new Date] does not
    throw. *)
Definition created (es : list Event) : list Todo.t :=
  (λ e, new_todo (env e) (request e))
    <$> filter (λ e, deadline_throws (request e) = false) es.

(** The [todos] arrays of all users, as lists of references. *)
Definition table (s : State) : list (list loc) := User.todos <$> users s.

(** Every reference held in a [todos] array is allocated, occurs once in its
    array, and occurs in no other user's array. *)
Record wf (s : State) : Prop := mk_wf {
  wf_alloc u ls l : table s !! u = Some ls → l ∈ ls → l < length (heap s);
  wf_nodup u ls : table s !! u = Some ls → NoDup ls;
  wf_owner u v ls ls' l :
    table s !! u = Some ls → table s !! v = Some ls' →
    l ∈ ls → l ∈ ls' → u = v;
}.

(** The state changes the handlers make, one constructor per mutation in the
    source: none; [users.push(user)]; [user.todos.push(todo)];
    [user.todo = undefined]; [user.todo = todo] followed by the assignments
    to the fields of [todo] ([title] and [deadline], [title] alone when
    [new Date] throws, or [done]); [user.todos.splice(todoIndex, 1)]. *)
Inductive effect (env : Env) (request : Request.t) (s : State) : State → Prop :=
  | effect_none :
      effect env request s s
  | effect_push_user :
      Array.find_pos
        (λ user, strict_eq (User.username user)
                   (Body.username (Request.body request))) (users s) = None →
      effect env request s
        (set_users (Array.push (new_user env request) (users s)) s)
  | effect_push_todo u user :
      users s !! u = Some user →
      effect env request s
        (with_user u
           (User.set_todos (Array.push (length (heap s)) (User.todos user)) user)
           (set_heap (heap s ++ [new_todo env request]) s))
  | effect_todo_undefined u user :
      users s !! u = Some user →
      id_absent s user (Params.id (Request.params request)) →
      effect env request s (with_user u (User.set_todo None user) s)
  | effect_update u user k l x :
      users s !! u = Some user →
      id_first_at s user (Params.id (Request.params request)) k l x →
      effect env request s
        (set_heap (<[l := updated request x]> (heap s))
           (with_user u (User.set_todo (Some l) user) s))
  | effect_retitle u user k l x :
      users s !! u = Some user →
      id_first_at s user (Params.id (Request.params request)) k l x →
      effect env request s
        (set_heap (<[l := retitled request x]> (heap s))
           (with_user u (User.set_todo (Some l) user) s))
  | effect_done u user k l x :
      users s !! u = Some user →
      id_first_at s user (Params.id (Request.params request)) k l x →
      effect env request s
        (set_heap (<[l := Todo.set_done true x]> (heap s))
           (with_user u (User.set_todo (Some l) user) s))
  | effect_splice u user k l x :
      users s !! u = Some user →
      id_first_at s user (Params.id (Request.params request)) k l x →
      effect env request s
        (with_user u (User.set_todos (delete k (User.todos user)) user) s).

(** Some stored user's [username] is strictly equal to [v]. *)
Definition username_taken (s : State) (v : value) : Prop :=
  ∃ user, user ∈ users s ∧ strict_eq (User.username user) v = true.

(** The stored users whose [username] is strictly equal to [v]. *)
Definition holders (s : State) (v : value) : list User.t :=
  filter (λ user, strict_eq (User.username user) v = true) (users s).

(** No two users of the store have strictly equal usernames. *)
Definition unique_usernames (s : State) : Prop :=
  ∀ i j ui uj,
    users s !! i = Some ui → users s !! j = Some uj →
    strict_eq (User.username ui) (User.username uj) = true → i = j.

(** ** A sample session *)

(** A request as it arrives: the middleware has not run yet. *)
Definition incoming (username : option string) (body : Body.t) (id : string)
    : Request.t :=
  Request.mk (Headers.mk username) body (Params.mk id) None.

Definition empty_body : Body.t :=
  Body.mk Undefined Undefined Undefined Undefined.

Module Sample.
(** [POST /users] with [{name: "Ana", username: "ana"}]. *)
Definition signup_ana : Event :=
  mkEvent POST_users (mkEnv "uuid-1" 100)
    (incoming None (Body.mk (Str "Ana") (Str "ana") Undefined Undefined) "").

(** [POST /todos] by [ana], twice. *)
Definition add_milk : Event :=
  mkEvent POST_todos (mkEnv "uuid-2" 200)
    (incoming (Some "ana")
       (Body.mk Undefined Undefined (Str "buy milk") (Str "2024-01-01")) "").
Definition add_bread : Event :=
  mkEvent POST_todos (mkEnv "uuid-3" 300)
    (incoming (Some "ana")
       (Body.mk Undefined Undefined (Str "buy bread") (Str "2024-01-02")) "").

(** A request by [ana] that names the [Todo] [id] and carries [body]. *)
Definition by_ana (body : Body.t) (id : string) : Request.t :=
  incoming (Some "ana") body id.

Definition later : Env := mkEnv "uuid-9" 900.

Definition registered : State := run init [signup_ana].
Definition one_todo : State := run init [signup_ana; add_milk].
Definition two_todos : State := run init [signup_ana; add_milk; add_bread].

(** [POST /users] with [{}], and a request that sends no [username] header. *)
Definition signup_nobody : Event :=
  mkEvent POST_users (mkEnv "uuid-4" 400) (incoming None empty_body "").
Definition anonymous : Request.t := incoming None empty_body "".
Definition nameless : State := run init [signup_nobody].

(** [POST /users] with [{name: "Bob", username: "bob"}]. *)
Definition signup_bob : Event :=
  mkEvent POST_users (mkEnv "uuid-5" 500)
    (incoming None (Body.mk (Str "Bob") (Str "bob") Undefined Undefined) "").
Definition two_users : State := run init [signup_ana; signup_bob].

(** [POST /todos] by [bob], and a store where [ana] and [bob] each have one
    [Todo]. *)
Definition bob_adds_tea : Event :=
  mkEvent POST_todos (mkEnv "uuid-6" 600)
    (incoming (Some "bob")
       (Body.mk Undefined Undefined (Str "buy tea") (Str "2024-01-03")) "").
Definition shared : State :=
  run init [signup_ana; signup_bob; add_milk; bob_adds_tea].

(** [POST /users] with [{name: "Seven", username: 1}]. *)
Definition signup_seven : Event :=
  mkEvent POST_users (mkEnv "uuid-8" 800)
    (incoming None
       (Body.mk (Str "Seven") (Number PrimFloat.one) Undefined Undefined) "").

(** [PATCH /todos/uuid-2/done] by [ana]. *)
Definition complete_milk : Event :=
  mkEvent PATCH_todos_done later (by_ana empty_body "uuid-2").
Definition milk_done : State := run init [signup_ana; add_milk; complete_milk].

(** [DELETE /todos/uuid-2] by [ana]. *)
Definition remove_milk : Event :=
  mkEvent DELETE_todos later (by_ana empty_body "uuid-2").

(** [PUT /todos/uuid-2] by [ana]. *)
Definition rename_milk : Event :=
  mkEvent PUT_todos later
    (by_ana (Body.mk Undefined Undefined (Str "buy oat milk")
               (Str "2024-03-01")) "uuid-2").

(** The body [{title: "buy soy milk", deadline: {toString: null}}]: nothing
    converts its [deadline] to a primitive. *)
Definition no_date : Body.t :=
  Body.mk Undefined Undefined (Str "buy soy milk")
    (Object 0 [("toString", Null)]).

(** [POST /todos] and [PUT /todos/uuid-2] by [ana] with that body. *)
Definition add_undated : Event :=
  mkEvent POST_todos (mkEnv "uuid-7" 700) (by_ana no_date "").
Definition undate_milk : Event :=
  mkEvent PUT_todos later (by_ana no_date "uuid-2").
End Sample.

(** ** Answers of the router *)

(** The answers of the router, one constructor per [return] of the source:
    the state a request leaves and the response it gets on each route. *)
Inductive served (env : Env) (request : Request.t) (s : State)
    : Route → State → Response.t → Prop :=
  | served_unresolved route :
      todo_route route = true →
      resolve request s = None →
      served env request s route s user_not_found
  | served_conflict :
      username_taken s (Body.username (Request.body request)) →
      served env request s POST_users s user_exists
  | served_signup :
      ¬ username_taken s (Body.username (Request.body request)) →
      served env request s POST_users
        (set_users (Array.push (new_user env request) (users s)) s)
        (Response.mk 201 (Response.user (new_user env request)))
  | served_list u user ts :
      resolve request s = Some u → users s !! u = Some user →
      mapM (λ l, heap s !! l) (User.todos user) = Some ts →
      served env request s GET_todos s
        (Response.mk 200 (Response.todo_list ts))
  | served_create_thrown u user :
      resolve request s = Some u → users s !! u = Some user →
      deadline_throws request = true →
      served env request s POST_todos s uncaught
  | served_create u user :
      resolve request s = Some u → users s !! u = Some user →
      deadline_throws request = false →
      served env request s POST_todos
        (with_user u
           (User.set_todos (Array.push (length (heap s)) (User.todos user)) user)
           (set_heap (heap s ++ [new_todo env request]) s))
        (Response.mk 201 (Response.todo (new_todo env request)))
  | served_update_missing u user :
      resolve request s = Some u → users s !! u = Some user →
      id_absent s user (Params.id (Request.params request)) →
      served env request s PUT_todos
        (with_user u (User.set_todo None user) s) todo_not_found
  | served_update_thrown u user k l x :
      resolve request s = Some u → users s !! u = Some user →
      id_first_at s user (Params.id (Request.params request)) k l x →
      deadline_throws request = true →
      served env request s PUT_todos
        (set_heap (<[l := retitled request x]> (heap s))
           (with_user u (User.set_todo (Some l) user) s))
        uncaught
  | served_update u user k l x :
      resolve request s = Some u → users s !! u = Some user →
      id_first_at s user (Params.id (Request.params request)) k l x →
      deadline_throws request = false →
      served env request s PUT_todos
        (set_heap (<[l := updated request x]> (heap s))
           (with_user u (User.set_todo (Some l) user) s))
        (Response.mk 200 (Response.todo (updated request x)))
  | served_complete_missing u user :
      resolve request s = Some u → users s !! u = Some user →
      id_absent s user (Params.id (Request.params request)) →
      served env request s PATCH_todos_done
        (with_user u (User.set_todo None user) s) todo_not_found
  | served_complete u user k l x :
      resolve request s = Some u → users s !! u = Some user →
      id_first_at s user (Params.id (Request.params request)) k l x →
      served env request s PATCH_todos_done
        (set_heap (<[l := Todo.set_done true x]> (heap s))
           (with_user u (User.set_todo (Some l) user) s))
        (Response.mk 200 (Response.todo (Todo.set_done true x)))
  | served_delete_missing u user :
      resolve request s = Some u → users s !! u = Some user →
      id_absent s user (Params.id (Request.params request)) →
      served env request s DELETE_todos s todo_not_found
  | served_delete u user k l x :
      resolve request s = Some u → users s !! u = Some user →
      id_first_at s user (Params.id (Request.params request)) k l x →
      served env request s DELETE_todos
        (with_user u (User.set_todos (delete k (User.todos user)) user) s)
        (Response.mk 204 Response.empty).

(** The identifiers held by the stored users and by the [Todo] objects. *)
Definition issued (s : State) : list string :=
  (User.id <$> users s) ++ (Todo.id <$> heap s).

(** A username that no header can match: neither a string nor [undefined]. *)
Definition unmatchable (v : value) : Prop :=
  match v with
  | Str _ | Undefined => False
  | _ => True
  end.

(** ** Proof steps *)

(** Runs a handler up to the point where it has read [request.user]. *)
Ltac enter_handler h Hreq Huser :=
  unfold h; rewrite Hreq; simpl; rewrite Huser; simpl.

(** Finds an element in a list written out. *)
Ltac in_list :=
  solve [repeat first [apply list_elem_of_here | apply list_elem_of_further]].

(** * Properties of the values *)

Lemma SFeqb_finite s1 m1 e1 s2 m2 e2 :
  SpecFloat.SFeqb (SpecFloat.S754_finite s1 m1 e1)
                  (SpecFloat.S754_finite s2 m2 e2) = true ↔
  s1 = s2 ∧ m1 = m2 ∧ e1 = e2.
Proof.
  unfold SpecFloat.SFeqb. simpl. split.
  - destruct s1, s2; try done.
    all: destruct (e1 ?= e2)%Z eqn:He; try done.
    all: apply Z.compare_eq in He as ->.
    all: destruct (Pos.compare_cont Eq m1 m2) eqn:Hm; try done.
    all: by apply Pos.compare_eq in Hm as ->.
  - intros (-> & -> & ->).
    rewrite Z.compare_refl, Pos.compare_cont_refl. by destruct s2.
Qed.

Lemma SFeqb_sym (a b : SpecFloat.spec_float) :
  SpecFloat.SFeqb a b = SpecFloat.SFeqb b a.
Proof.
  destruct a as [[]|[]| |s1 m1 e1], b as [[]|[]| |s2 m2 e2];
    try done; try (by destruct s1); try (by destruct s2).
  apply eq_true_iff_eq. rewrite !SFeqb_finite.
  split; by intros (-> & -> & ->).
Qed.

Lemma SFeqb_trans (a b c : SpecFloat.spec_float) :
  SpecFloat.SFeqb a b = true → SpecFloat.SFeqb b c = true →
  SpecFloat.SFeqb a c = true.
Proof.
  destruct a as [sa|sa| |sa ma ea], b as [sb|sb| |sb mb eb];
    try (by destruct sa); try (by destruct sb);
    try (by destruct sa, sb).
  - done.
  - intros (-> & -> & ->)%SFeqb_finite. done.
Qed.

Lemma strict_eq_sym (a b : value) : strict_eq a b = strict_eq b a.
Proof.
  destruct a, b; simpl; try done.
  - apply bool_decide_ext. naive_solver.
  - rewrite !FloatAxioms.eqb_spec. apply SFeqb_sym.
  - apply bool_decide_ext. naive_solver.
  - apply bool_decide_ext. naive_solver.
  - apply bool_decide_ext. naive_solver.
Qed.

Lemma strict_eq_trans (a b c : value) :
  strict_eq a b = true → strict_eq b c = true → strict_eq a c = true.
Proof.
  destruct a, b; simpl; try done; destruct c; simpl; try done.
  - intros ->%bool_decide_eq_true. done.
  - rewrite !FloatAxioms.eqb_spec. apply SFeqb_trans.
  - intros ->%bool_decide_eq_true. done.
  - intros ->%bool_decide_eq_true. done.
  - intros ->%bool_decide_eq_true. done.
Qed.

(** [new Date] either throws or builds the date of its argument. *)
Lemma new_Date_throws (v : value) :
  to_primitive_throws v = true → new_Date v = None.
Proof. unfold new_Date. by intros ->. Qed.

Lemma new_Date_returns (v : value) :
  to_primitive_throws v = false → new_Date v = Some (DateOf v).
Proof. unfold new_Date. by intros ->. Qed.

(** Every value other than a number is strictly equal to itself; so is every
    number but [NaN], which no JSON text denotes. *)
Lemma strict_eq_refl_str (s : string) : strict_eq (Str s) (Str s) = true.
Proof. simpl. by apply bool_decide_eq_true. Qed.

Lemma strict_eq_undefined (a : value) :
  strict_eq a Undefined = true ↔ a = Undefined.
Proof. destruct a; naive_solver. Qed.

Lemma strict_eq_header (a : value) (h : option string) :
  strict_eq a (header_value h) = true ↔ a = header_value h.
Proof.
  destruct h as [s|]; simpl; [|apply strict_eq_undefined].
  destruct a; simpl; try naive_solver.
  rewrite bool_decide_eq_true. naive_solver.
Qed.

(** * Properties of the array methods *)

Section Array_facts.
Context {A : Type}.
Implicit Types (p q : A → bool) (l : list A).

Lemma find_pos_Some p l i :
  Array.find_pos p l = Some i ↔
  ∃ x, l !! i = Some x ∧ p x = true
       ∧ ∀ j y, l !! j = Some y → j < i → p y = false.
Proof.
  unfold Array.find_pos. rewrite fmap_Some. split.
  - intros ([j x] & (Hx & Hp & Hmin)%list_find_Some & ->). exists x.
    split_and!; [done|by apply Is_true_true|].
    intros k y Hy Hk. apply Is_true_false. eauto.
  - intros (x & Hx & Hp & Hmin). exists (i, x). split; [|done].
    apply list_find_Some. split_and!; [done|by apply Is_true_true|].
    intros k y Hy Hk. apply Is_true_false. eauto.
Qed.

Lemma find_pos_None p l :
  Array.find_pos p l = None ↔ ∀ x, x ∈ l → p x = false.
Proof.
  unfold Array.find_pos. rewrite fmap_None, list_find_None, Forall_forall.
  split; intros H x Hx.
  - apply Is_true_false_1. by apply H.
  - apply Is_true_false_2. by apply H.
Qed.

Lemma find_via_pos p l : Array.find p l = Array.find_pos p l ≫= (l !!.).
Proof.
  unfold Array.find, Array.find_pos.
  destruct (list_find _ l) as [[i x]|] eqn:E; simpl; [|done].
  apply list_find_Some in E as (-> & _). done.
Qed.

Lemma find_None p l : Array.find p l = None ↔ Array.find_pos p l = None.
Proof.
  unfold Array.find, Array.find_pos. rewrite !fmap_None. done.
Qed.

Lemma find_Some p l x :
  Array.find p l = Some x ↔
  ∃ i, Array.find_pos p l = Some i ∧ l !! i = Some x.
Proof.
  rewrite find_via_pos, bind_Some. done.
Qed.

Lemma findIndex_None p l :
  Array.findIndex p l = (-1)%Z ↔ Array.find_pos p l = None.
Proof.
  unfold Array.findIndex. destruct (Array.find_pos p l); simpl; [|done].
  split; [lia|done].
Qed.

Lemma findIndex_Some p l i :
  Array.find_pos p l = Some i → Array.findIndex p l = Z.of_nat i.
Proof. unfold Array.findIndex. by intros ->. Qed.

Lemma find_pos_ext p q l :
  (∀ x, x ∈ l → p x = q x) → Array.find_pos p l = Array.find_pos q l.
Proof.
  intros Hpq. destruct (Array.find_pos q l) as [i|] eqn:E.
  - apply find_pos_Some in E as (x & Hx & Hq & Hmin).
    apply find_pos_Some. exists x. split_and!; [done|..].
    + rewrite Hpq; eauto using list_elem_of_lookup_2.
    + intros j y Hy Hj. rewrite Hpq; eauto using list_elem_of_lookup_2.
  - apply find_pos_None. intros x Hx. rewrite Hpq by done.
    revert x Hx. by apply find_pos_None.
Qed.

(** Removing one element at a position inside the array. *)
Lemma splice_one l i :
  i < length l → Array.splice (Z.of_nat i) 1 l = delete i l.
Proof.
  intros Hi. unfold Array.splice. rewrite delete_take_drop.
  rewrite bool_decide_eq_false_2 by lia.
  rewrite (Z.min_l (Z.of_nat i)) by lia.
  rewrite (Z.max_l 1 0) by lia.
  rewrite (Z.min_l 1) by lia.
  rewrite Nat2Z.id. do 2 f_equal. lia.
Qed.
End Array_facts.

Lemma find_pos_fmap {A B} (f : A → B) (p : B → bool) (l : list A) :
  Array.find_pos p (f <$> l) = Array.find_pos (p ∘ f) l.
Proof.
  unfold Array.find_pos. rewrite list_find_fmap.
  by destruct (list_find _ l) as [[]|].
Qed.

(** * Reading a list of references *)

Section Deref.
Implicit Types (h : list Todo.t) (ls : list loc) (ts : list Todo.t).

Lemma deref_Some h ls ts :
  mapM (λ l, h !! l) ls = Some ts ↔
  length ls = length ts
  ∧ ∀ i l x, ls !! i = Some l → ts !! i = Some x → h !! l = Some x.
Proof. by rewrite mapM_Some, Forall2_same_length_lookup. Qed.

Lemma deref_is_Some h ls :
  (∀ l, l ∈ ls → l < length h) → is_Some (mapM (λ l, h !! l) ls).
Proof.
  intros Hls. apply mapM_is_Some, Forall_forall. intros l Hl.
  apply lookup_lt_is_Some; auto.
Qed.

Lemma deref_alloc h ls ts x :
  mapM (λ l, h !! l) ls = Some ts →
  mapM (λ l, (h ++ [x]) !! l) ls = Some ts.
Proof.
  rewrite !deref_Some. intros [Hlen H]. split; [done|].
  intros i l y Hl Hy. apply lookup_app_l_Some; eauto.
Qed.

Lemma deref_push h ls ts x :
  mapM (λ l, h !! l) ls = Some ts →
  mapM (λ l, (h ++ [x]) !! l) (Array.push (length h) ls)
  = Some (Array.push x ts).
Proof.
  unfold Array.push. rewrite !deref_Some. intros [Hlen H].
  split; [rewrite !length_app; simpl; lia|].
  intros i l y [Hl|[Hi Hl]]%lookup_app_Some Hy.
  - rewrite lookup_app_l in Hy
      by (rewrite <-Hlen; eauto using lookup_lt_Some).
    apply lookup_app_l_Some; eauto.
  - apply list_lookup_singleton_Some in Hl as [Hi' <-].
    rewrite lookup_app_r in Hy by lia.
    rewrite <-Hlen in Hy.
    apply list_lookup_singleton_Some in Hy as [_ <-].
    by rewrite list_lookup_middle.
Qed.

Lemma deref_delete h ls ts k :
  mapM (λ l, h !! l) ls = Some ts →
  mapM (λ l, h !! l) (delete k ls) = Some (delete k ts).
Proof. rewrite !mapM_Some. apply Forall2_delete. Qed.

Lemma deref_insert_other h ls ts l x :
  l ∉ ls →
  mapM (λ l, h !! l) ls = Some ts →
  mapM (λ l', <[l := x]> h !! l') ls = Some ts.
Proof.
  rewrite !deref_Some. intros Hl [Hlen H]. split; [done|].
  intros i l' y Hl' Hy. rewrite list_lookup_insert_ne; [eauto|].
  intros ->. eauto using list_elem_of_lookup_2.
Qed.

Lemma deref_insert h ls ts k l x :
  NoDup ls → ls !! k = Some l →
  mapM (λ l, h !! l) ls = Some ts →
  mapM (λ l', <[l := x]> h !! l') ls = Some (<[k := x]> ts).
Proof.
  rewrite !deref_Some. intros Hnd Hk [Hlen H].
  split; [by rewrite length_insert|].
  intros i l' y Hl' Hy. destruct (decide (i = k)) as [->|Hik].
  - assert (l' = l) as -> by congruence.
    apply list_lookup_insert_Some in Hy as [(_ & <- & Hlt)|[? _]]; [|done].
    apply list_lookup_insert_eq. rewrite <-Hlen in Hlt.
    destruct (lookup_lt_is_Some_2 ts k) as [z Hz]; [lia|].
    eauto using lookup_lt_Some.
  - rewrite list_lookup_insert_ne in Hy by done.
    rewrite list_lookup_insert_ne; [eauto|].
    intros ->. apply Hik. eapply NoDup_lookup; eauto.
Qed.
End Deref.

(** * The middleware and the handlers, case by case *)

Lemma middleware_resolve request next s :
  checksExistsUserAccount request next s =
  match resolve request s with
  | None => Some (s, user_not_found)
  | Some u => next (Request.set_user u request) s
  end.
Proof. done. Qed.

Lemma app_guarded route env request s :
  todo_route route = true →
  app route env request s =
  match resolve request s with
  | None => Some (s, user_not_found)
  | Some u => downstream route env (Request.set_user u request) s
  end.
Proof. by destruct route. Qed.

Lemma resolve_Some request s u :
  resolve request s = Some u →
  ∃ user, users s !! u = Some user
    ∧ strict_eq (User.username user)
        (header_value (Headers.username (Request.headers request))) = true.
Proof.
  unfold resolve. intros (user & Hu & Heq & _)%find_pos_Some. eauto.
Qed.

Lemma has_id_true h id l :
  has_id h id l = true ↔ ∃ x, h !! l = Some x ∧ Todo.id x = id.
Proof.
  unfold has_id. destruct (h !! l) as [x|]; [|naive_solver].
  rewrite bool_decide_eq_true. naive_solver.
Qed.

Lemma has_id_false h id l :
  has_id h id l = false ↔ ∀ x, h !! l = Some x → Todo.id x ≠ id.
Proof.
  unfold has_id. destruct (h !! l) as [x|]; [|naive_solver].
  rewrite bool_decide_eq_false. naive_solver.
Qed.

Lemma id_absent_find s user id :
  id_absent s user id ↔
  Array.find_pos (has_id (heap s) id) (User.todos user) = None.
Proof.
  rewrite find_pos_None. unfold id_absent.
  split; intros H l Hl.
  - apply has_id_false. eauto.
  - intros x Hx. by eapply has_id_false; eauto.
Qed.

Lemma id_first_at_find s user id k l x :
  id_first_at s user id k l x ↔
  Array.find_pos (has_id (heap s) id) (User.todos user) = Some k
  ∧ User.todos user !! k = Some l ∧ heap s !! l = Some x.
Proof.
  rewrite find_pos_Some. unfold id_first_at. split.
  - intros (Hk & Hx & Hid & Hmin). split_and!; [|done..].
    exists l. split_and!; [done|apply has_id_true; eauto|].
    intros j l' Hl' Hj. apply has_id_false. eauto.
  - intros ((l' & Hl' & (y & Hy & Hid)%has_id_true & Hmin) & Hk & Hx).
    assert (l' = l) as -> by congruence.
    assert (y = x) as -> by congruence.
    split_and!; [done..|].
    intros j l' z Hj Hl Hz. eapply has_id_false; eauto.
Qed.

Lemma id_present_first s user id l x :
  l ∈ User.todos user → heap s !! l = Some x → Todo.id x = id →
  ∃ k l' x', id_first_at s user id k l' x'.
Proof.
  intros Hl Hx Hid.
  destruct (Array.find_pos (has_id (heap s) id) (User.todos user))
    as [k|] eqn:E.
  - pose proof E as (l' & Hl' & (x' & Hx' & _)%has_id_true & _)%find_pos_Some.
    exists k, l', x'. by apply id_first_at_find.
  - apply id_absent_find in E. by destruct (E l x).
Qed.

Section Exec.
Context (env : Env) (request : Request.t) (s : State) (u : nat) (user : User.t).
Context (Hreq : Request.user request = Some u).
Context (Huser : users s !! u = Some user).

Local Abbreviation id := (Params.id (Request.params request)).

Lemma get_todos_exec ts :
  mapM (λ l, heap s !! l) (User.todos user) = Some ts →
  get_todos env request s = Some (s, Response.json (Response.todo_list ts)).
Proof using Hreq Huser.
  intros Hts. enter_handler get_todos Hreq Huser. by rewrite Hts.
Qed.

Lemma post_todos_thrown :
  deadline_throws request = true →
  post_todos env request s = Some (s, uncaught).
Proof using Hreq Huser.
  intros Hthrow%new_Date_throws.
  enter_handler post_todos Hreq Huser. by rewrite Hthrow.
Qed.

Lemma post_todos_exec :
  deadline_throws request = false →
  post_todos env request s =
  Some (with_user u
          (User.set_todos (Array.push (length (heap s)) (User.todos user)) user)
          (set_heap (heap s ++ [new_todo env request]) s),
        Response.mk 201 (Response.todo (new_todo env request))).
Proof using Hreq Huser.
  intros Hdate%new_Date_returns.
  enter_handler post_todos Hreq Huser. by rewrite Hdate.
Qed.

Lemma put_todos_missing :
  id_absent s user id →
  put_todos env request s =
  Some (with_user u (User.set_todo None user) s, todo_not_found).
Proof using Hreq Huser.
  intros Habs%id_absent_find%find_None.
  enter_handler put_todos Hreq Huser. by rewrite Habs.
Qed.

Lemma put_todos_thrown k l x :
  id_first_at s user id k l x →
  deadline_throws request = true →
  put_todos env request s =
  Some (set_heap (<[l := retitled request x]> (heap s))
          (with_user u (User.set_todo (Some l) user) s),
        uncaught).
Proof using Hreq Huser.
  intros (Hk & Hl & Hx)%id_first_at_find Hthrow%new_Date_throws.
  enter_handler put_todos Hreq Huser.
  rewrite (proj2 (find_Some _ _ l)) by eauto. simpl.
  by rewrite Hx, Hthrow.
Qed.

Lemma put_todos_found k l x :
  id_first_at s user id k l x →
  deadline_throws request = false →
  put_todos env request s =
  Some (set_heap (<[l := updated request x]> (heap s))
          (with_user u (User.set_todo (Some l) user) s),
        Response.json (Response.todo (updated request x))).
Proof using Hreq Huser.
  intros (Hk & Hl & Hx)%id_first_at_find Hdate%new_Date_returns.
  enter_handler put_todos Hreq Huser.
  rewrite (proj2 (find_Some _ _ l)) by eauto. simpl.
  rewrite Hx, Hdate. simpl. unfold set_heap. simpl.
  by rewrite list_insert_insert_eq.
Qed.

Lemma put_todos_present k l x :
  id_first_at s user id k l x →
  put_todos env request s =
  Some (set_heap (<[l := put_leaves request x]> (heap s))
          (with_user u (User.set_todo (Some l) user) s),
        if deadline_throws request then uncaught
        else Response.json (Response.todo (put_leaves request x))).
Proof using Hreq Huser.
  intros Hfirst. unfold put_leaves.
  destruct (deadline_throws request) eqn:Hdate.
  - by apply (put_todos_thrown k).
  - by apply (put_todos_found k).
Qed.

Lemma patch_todos_done_missing :
  id_absent s user id →
  patch_todos_done env request s =
  Some (with_user u (User.set_todo None user) s, todo_not_found).
Proof using Hreq Huser.
  intros Habs%id_absent_find%find_None.
  enter_handler patch_todos_done Hreq Huser. by rewrite Habs.
Qed.

Lemma patch_todos_done_found k l x :
  id_first_at s user id k l x →
  patch_todos_done env request s =
  Some (set_heap (<[l := Todo.set_done true x]> (heap s))
          (with_user u (User.set_todo (Some l) user) s),
        Response.json (Response.todo (Todo.set_done true x))).
Proof using Hreq Huser.
  intros (Hk & Hl & Hx)%id_first_at_find.
  enter_handler patch_todos_done Hreq Huser.
  rewrite (proj2 (find_Some _ _ l)) by eauto. simpl. by rewrite Hx.
Qed.

Lemma delete_todos_missing :
  id_absent s user id →
  delete_todos env request s = Some (s, todo_not_found).
Proof using Hreq Huser.
  intros Habs%id_absent_find%findIndex_None.
  enter_handler delete_todos Hreq Huser.
  by rewrite bool_decide_eq_true_2.
Qed.

Lemma delete_todos_found k l x :
  id_first_at s user id k l x →
  delete_todos env request s =
  Some (with_user u (User.set_todos (delete k (User.todos user)) user) s,
        Response.mk 204 Response.empty).
Proof using Hreq Huser.
  intros (Hk & Hl & Hx)%id_first_at_find.
  enter_handler delete_todos Hreq Huser.
  rewrite (findIndex_Some _ _ k) by done.
  rewrite bool_decide_eq_false_2 by lia.
  rewrite splice_one by eauto using lookup_lt_Some. done.
Qed.

(** Either the identifier is absent or it is first carried somewhere. *)
Lemma id_cases :
  id_absent s user id ∨ ∃ k l x, id_first_at s user id k l x.
Proof.
  destruct (Array.find_pos (has_id (heap s) id) (User.todos user))
    as [k|] eqn:E.
  - right.
    pose proof E as (l & Hl & (x & Hx & _)%has_id_true & _)%find_pos_Some.
    exists k, l, x. by apply id_first_at_find.
  - left. by apply id_absent_find.
Qed.
End Exec.

(** * Well-formed states *)

Lemma table_lookup s u user :
  users s !! u = Some user → table s !! u = Some (User.todos user).
Proof. intros H. unfold table. by rewrite list_lookup_fmap, H. Qed.

Lemma table_with_user s u user :
  table (with_user u user s) = <[u := User.todos user]> (table s).
Proof. unfold table, with_user. simpl. by rewrite list_fmap_insert. Qed.

Lemma table_with_user_same s u user user' :
  users s !! u = Some user → User.todos user' = User.todos user →
  table (with_user u user' s) = table s.
Proof.
  intros Hu Heq. rewrite table_with_user, Heq.
  by apply list_insert_id, table_lookup.
Qed.

Lemma wf_init : wf init.
Proof. split; unfold table; simpl; intros *; by rewrite lookup_nil. Qed.

Lemma wf_same s s' :
  table s' = table s → length (heap s') = length (heap s) → wf s → wf s'.
Proof.
  intros Ht Hh [H1 H2 H3]. split; rewrite ?Ht, ?Hh; eauto.
Qed.

Lemma wf_push_user s user :
  User.todos user = [] → wf s → wf (set_users (Array.push user (users s)) s).
Proof.
  intros Hnil [H1 H2 H3].
  assert (∀ v ls, table (set_users (Array.push user (users s)) s) !! v = Some ls →
            table s !! v = Some ls ∨ ls = []) as Hcases.
  { intros v ls. unfold table, Array.push. simpl. rewrite fmap_app. simpl.
    rewrite Hnil. intros [?|[_ [_ <-]%list_lookup_singleton_Some]]%lookup_app_Some;
      auto. }
  split.
  - intros v ls l [Hv| ->]%Hcases Hl; [by eauto|]. by apply elem_of_nil in Hl.
  - intros v ls [Hv| ->]%Hcases; [by eauto|]. constructor.
  - intros v w ls ls' l [Hv| ->]%Hcases [Hw| ->]%Hcases Hl Hl';
      try (by apply elem_of_nil in Hl); try (by apply elem_of_nil in Hl').
    eauto.
Qed.

Lemma wf_push_todo s u user x :
  users s !! u = Some user → wf s →
  wf (with_user u
        (User.set_todos (Array.push (length (heap s)) (User.todos user)) user)
        (set_heap (heap s ++ [x]) s)).
Proof.
  intros Hu%table_lookup [H1 H2 H3].
  set (s' := with_user _ _ _).
  assert (length (heap s') = S (length (heap s))) as Hlen.
  { subst s'. simpl. rewrite length_app. simpl. lia. }
  assert (∀ v ls, table s' !! v = Some ls →
            (v = u ∧ ls = User.todos user ++ [length (heap s)])
            ∨ (v ≠ u ∧ table s !! v = Some ls)) as Hcases.
  { intros v ls. subst s'. rewrite table_with_user. simpl.
    unfold Array.push. fold (table s).
    intros [(-> & <- & _)|[? ?]]%list_lookup_insert_Some; auto. }
  assert (∀ v ls, table s !! v = Some ls → length (heap s) ∉ ls) as Hfresh.
  { intros v ls Hv Hin. specialize (H1 _ _ _ Hv Hin). lia. }
  split.
  - intros v ls l [[-> ->]|[Hne Hv]]%Hcases Hl; rewrite Hlen.
    + apply elem_of_app in Hl as [Hl| ->%list_elem_of_singleton]; [|lia].
      specialize (H1 _ _ _ Hu Hl). lia.
    + specialize (H1 _ _ _ Hv Hl). lia.
  - intros v ls [[-> ->]|[Hne Hv]]%Hcases; [|by eauto].
    apply NoDup_app. split_and!; [by eauto| |apply NoDup_singleton].
    intros l Hl ->%list_elem_of_singleton. by eapply Hfresh.
  - intros v w ls ls' l [[-> ->]|[Hne Hv]]%Hcases [[-> ->]|[Hne' Hw]]%Hcases
      Hl Hl'; [done| | |by eauto].
    + apply elem_of_app in Hl as [Hl| ->%list_elem_of_singleton]; [by eauto|].
      by destruct (Hfresh _ _ Hw).
    + apply elem_of_app in Hl' as [Hl'| ->%list_elem_of_singleton]; [by eauto|].
      by destruct (Hfresh _ _ Hv).
Qed.

Lemma wf_delete s u user k :
  users s !! u = Some user → wf s →
  wf (with_user u (User.set_todos (delete k (User.todos user)) user) s).
Proof.
  intros Hu%table_lookup [H1 H2 H3].
  set (s' := with_user _ _ _).
  assert (∀ v ls, table s' !! v = Some ls →
            ∃ ls0, table s !! v = Some ls0 ∧ ls `sublist_of` ls0) as Hcases.
  { intros v ls. subst s'. rewrite table_with_user. simpl.
    intros [(-> & <- & _)|[? ?]]%list_lookup_insert_Some.
    - eauto using sublist_delete.
    - eauto. }
  split.
  - intros v ls l (ls0 & Hv & Hsub)%Hcases Hl.
    change (heap s') with (heap s). eapply H1; [done|].
    eauto using elem_of_sublist.
  - intros v ls (ls0 & Hv & Hsub)%Hcases.
    eapply sublist_NoDup; eauto.
  - intros v w ls ls' l (ls0 & Hv & Hsub)%Hcases (ls1 & Hw & Hsub')%Hcases Hl Hl'.
    apply (H3 v w ls0 ls1 l); eauto using elem_of_sublist.
Qed.

(** * What one request can do to the state *)

Lemma post_users_effect env request s s' r :
  post_users env request s = Some (s', r) → effect env request s s'.
Proof.
  unfold post_users.
  destruct (Array.find _ (users s)) as [user|] eqn:E; intros [= <- <-].
  - constructor.
  - apply effect_push_user. by apply find_None.
Qed.

Lemma downstream_effect route env request s u s' r :
  todo_route route = true →
  Request.user request = Some u → is_Some (users s !! u) →
  downstream route env request s = Some (s', r) →
  effect env request s s'.
Proof.
  intros Hroute Hreq [user Huser] Hrun.
  destruct (deadline_throws request) eqn:Hdate;
    destruct (id_cases request s user) as [Habs|(k & l & x & Hfirst)];
    destruct route; try done; simpl in Hrun.
  all: try (unfold get_todos in Hrun; rewrite Hreq in Hrun; simpl in Hrun;
            rewrite Huser in Hrun; simpl in Hrun;
            destruct (mapM _ _); simplify_eq/=; by constructor).
  all: try (erewrite post_todos_thrown in Hrun by done; simplify_eq;
            by constructor).
  all: try (erewrite post_todos_exec in Hrun by done; simplify_eq;
            by eapply effect_push_todo).
  all: try (erewrite put_todos_missing in Hrun by done; simplify_eq;
            by apply effect_todo_undefined).
  all: try (erewrite patch_todos_done_missing in Hrun by done; simplify_eq;
            by apply effect_todo_undefined).
  all: try (erewrite delete_todos_missing in Hrun by done; simplify_eq;
            by constructor).
  all: try (erewrite patch_todos_done_found in Hrun by done; simplify_eq;
            by eapply effect_done).
  all: try (erewrite delete_todos_found in Hrun by done; simplify_eq;
            by eapply effect_splice).
  - erewrite put_todos_thrown in Hrun by done. simplify_eq.
    by eapply effect_retitle.
  - erewrite put_todos_found in Hrun by done. simplify_eq.
    by eapply effect_update.
Qed.

Lemma effect_set_user env request u s s' :
  effect env (Request.set_user u request) s s' → effect env request s s'.
Proof.
  intros H.
  destruct H as [|H|v user H|v user H H'|v user k l x H H'
                |v user k l x H H'|v user k l x H H'|v user k l x H H'].
  - exact (effect_none env request s).
  - exact (effect_push_user env request s H).
  - exact (effect_push_todo env request s v user H).
  - exact (effect_todo_undefined env request s v user H H').
  - exact (effect_update env request s v user k l x H H').
  - exact (effect_retitle env request s v user k l x H H').
  - exact (effect_done env request s v user k l x H H').
  - exact (effect_splice env request s v user k l x H H').
Qed.

Lemma app_effect route env request s s' r :
  app route env request s = Some (s', r) → effect env request s s'.
Proof.
  destruct (todo_route route) eqn:Hroute.
  - rewrite app_guarded by done.
    destruct (resolve request s) as [u|] eqn:Hres.
    + intros Hrun. apply (effect_set_user _ _ u).
      apply resolve_Some in Hres as (user & Huser & _).
      eapply downstream_effect; eauto.
    + intros [= <- <-]. constructor.
  - destruct route; try done. apply post_users_effect.
Qed.

Lemma step_effect s e : effect (env e) (request e) s (step s e).
Proof.
  unfold step.
  destruct (app _ _ _ s) as [[s' r]|] eqn:E; [|constructor].
  by eapply app_effect.
Qed.

Lemma wf_effect env request s s' : effect env request s s' → wf s → wf s'.
Proof.
  intros H Hwf. destruct H as [|?|u user ?|u user ? ?|u user k l x ? ?
                              |u user k l x ? ?|u user k l x ? ?
                              |u user k l x ? ?].
  - done.
  - by apply wf_push_user.
  - by apply wf_push_todo.
  - apply (wf_same s); [by eapply table_with_user_same|done..].
  - apply (wf_same s); [by eapply table_with_user_same| |done].
    simpl. by rewrite length_insert.
  - apply (wf_same s); [by eapply table_with_user_same| |done].
    simpl. by rewrite length_insert.
  - apply (wf_same s); [by eapply table_with_user_same| |done].
    simpl. by rewrite length_insert.
  - by apply wf_delete.
Qed.

Lemma wf_run s es : wf s → wf (run s es).
Proof.
  revert s. induction es as [|e es IH]; intros s Hwf; [done|].
  simpl. apply IH. eapply wf_effect; [apply step_effect|done].
Qed.

Lemma wf_reachable s : reachable s → wf s.
Proof. intros [es <-]. apply wf_run, wf_init. Qed.

Lemma reachable_step s e : reachable s → reachable (step s e).
Proof.
  intros [es <-]. exists (es ++ [e]). unfold run. by rewrite foldl_snoc.
Qed.

Lemma reachable_app route env request s s' r :
  reachable s → app route env request s = Some (s', r) → reachable s'.
Proof.
  intros Hs Hrun.
  replace s' with (step s (mkEvent route env request));
    [by apply reachable_step|].
  unfold step. simpl. by rewrite Hrun.
Qed.

(** In a well-formed state every [todos] array can be read. *)
Lemma todos_of_is_Some s u user :
  wf s → users s !! u = Some user →
  ∃ ts, mapM (λ l, heap s !! l) (User.todos user) = Some ts.
Proof.
  intros Hwf Hu. apply deref_is_Some. intros l Hl.
  eapply wf_alloc; eauto using table_lookup.
Qed.

Lemma todos_of_user s u user :
  users s !! u = Some user →
  todos_of s u = mapM (λ l, heap s !! l) (User.todos user).
Proof. intros H. unfold todos_of. by rewrite H. Qed.

(** * What a request leaves untouched *)

Lemma resolve_usernames request s s' :
  User.username <$> users s' = User.username <$> users s →
  resolve request s' = resolve request s.
Proof.
  intros Heq. unfold resolve.
  pose proof (find_pos_fmap User.username
    (λ n, strict_eq n (header_value (Headers.username (Request.headers request)))))
    as Hf.
  unfold compose in Hf. by rewrite <-!Hf, Heq.
Qed.

Lemma usernames_with_user s u user user' :
  users s !! u = Some user → User.username user' = User.username user →
  User.username <$> users (with_user u user' s) = User.username <$> users s.
Proof.
  intros Hu Heq. unfold with_user. simpl. rewrite list_fmap_insert, Heq.
  apply list_insert_id. by rewrite list_lookup_fmap, Hu.
Qed.

Lemma with_user_lookup s u user user' :
  users s !! u = Some user → users (with_user u user' s) !! u = Some user'.
Proof.
  intros Hu. unfold with_user. simpl.
  apply list_lookup_insert_eq. eauto using lookup_lt_Some.
Qed.

Lemma with_user_lookup_ne s u v user' :
  v ≠ u → users (with_user u user' s) !! v = users s !! v.
Proof. intros Hne. unfold with_user. simpl. by apply list_lookup_insert_ne. Qed.

Lemma todos_of_table s u :
  todos_of s u = table s !! u ≫= mapM (λ l, heap s !! l).
Proof.
  unfold todos_of, table. rewrite list_lookup_fmap.
  by destruct (users s !! u).
Qed.

Lemma todos_of_same s s' :
  table s' = table s → heap s' = heap s → ∀ v, todos_of s' v = todos_of s v.
Proof. intros Ht Hh v. by rewrite !todos_of_table, Ht, Hh. Qed.

(** Writing to an object of user [u] is not seen through another user's
    array. *)
Lemma todos_of_insert_other s u v user l x :
  wf s → users s !! u = Some user → l ∈ User.todos user → v ≠ u →
  mapM (λ l', <[l := x]> (heap s) !! l') <$> table s !! v
  = mapM (λ l', heap s !! l') <$> table s !! v.
Proof.
  intros Hwf Hu%table_lookup Hl Hne.
  destruct (table s !! v) as [ls|] eqn:Hv; [|done]. simpl. f_equal.
  assert (l ∉ ls) as Hnot.
  { intros Hin. apply Hne. eapply (wf_owner s Hwf v u); eauto. }
  destruct (mapM (λ l', heap s !! l') ls) as [ts|] eqn:E.
  - by apply deref_insert_other.
  - apply mapM_None in E. apply mapM_None.
    apply Exists_exists in E as (l' & Hl' & Hnone).
    apply Exists_exists. exists l'. split; [done|].
    rewrite list_lookup_insert_ne; [done|]. by intros ->.
Qed.

Lemma has_id_ids h h' id l :
  Todo.id <$> h' = Todo.id <$> h → has_id h' id l = has_id h id l.
Proof.
  intros Heq. unfold has_id.
  assert ((Todo.id <$> h') !! l = (Todo.id <$> h) !! l) as Hl by by rewrite Heq.
  rewrite !list_lookup_fmap in Hl.
  destruct (h' !! l), (h !! l); simpl in Hl; try done.
  injection Hl as Hl. by rewrite Hl.
Qed.

Lemma ids_insert (h : list Todo.t) (l : loc) x x' :
  h !! l = Some x → Todo.id x' = Todo.id x →
  Todo.id <$> <[l := x']> h = Todo.id <$> h.
Proof.
  intros Hl Hid. rewrite list_fmap_insert, Hid.
  apply list_insert_id. by rewrite list_lookup_fmap, Hl.
Qed.

(** A state whose users hold the same [todos] arrays and whose objects carry
    the same identifiers answers every search for an identifier alike. *)
Lemma id_first_at_ids s s' user user' id k l x x' :
  User.todos user' = User.todos user →
  Todo.id <$> heap s' = Todo.id <$> heap s →
  heap s' !! l = Some x' →
  id_first_at s user id k l x → id_first_at s' user' id k l x'.
Proof.
  intros Ht Hids Hx' (Hfind & Hk & Hx)%id_first_at_find.
  apply id_first_at_find. rewrite Ht. split_and!; [|done..].
  rewrite <-Hfind. apply find_pos_ext. intros l' _. by apply has_id_ids.
Qed.

(** * The model at work *)

(** Strict equality: [NaN] differs from itself, the two zeros are equal, and
    values of different types are never equal. *)
Example strict_eq_cases :
  strict_eq (Number PrimFloat.nan) (Number PrimFloat.nan) = false
  ∧ strict_eq (Number PrimFloat.zero) (Number PrimFloat.neg_zero) = true
  ∧ strict_eq (Str "1") (Number PrimFloat.one) = false
  ∧ strict_eq Undefined Null = false
  ∧ strict_eq Undefined Undefined = true.
Proof. repeat split; reflexivity. Qed.

(** [new Date]: an object with an own [toString] cannot be converted, nor can
    an array that holds one; an object with other properties can, whatever
    they hold, and so can every primitive. *)
Example new_Date_cases :
  new_Date (Object 0 [("toString", Null)]) = None
  ∧ new_Date (Array 0 [Str "a"; Object 1 [("toString", Str "b")]]) = None
  ∧ new_Date (Object 0 [("valueOf", Null)])
    = Some (DateOf (Object 0 [("valueOf", Null)]))
  ∧ new_Date (Object 0 [("a", Object 1 [("toString", Null)])])
    = Some (DateOf (Object 0 [("a", Object 1 [("toString", Null)])]))
  ∧ new_Date (Array 0 [Null; Array 1 []])
    = Some (DateOf (Array 0 [Null; Array 1 []]))
  ∧ new_Date Undefined = Some (DateOf Undefined).
Proof. repeat split; reflexivity. Qed.

(** [splice]: inside the array, from the end, and past the end. *)
Example splice_cases :
  Array.splice 1 1 [10; 20; 30] = [10; 30]
  ∧ Array.splice (-1) 1 [10; 20; 30] = [10; 20]
  ∧ Array.splice 5 1 [10; 20; 30] = [10; 20; 30]
  ∧ Array.splice 0 2 [10; 20; 30] = [30].
Proof. repeat split; reflexivity. Qed.

(** A [deadline] that [new Date] cannot convert: [POST /todos] creates
    nothing, [PUT /todos/:id] has assigned [user.todo] and the [title] by
    then; both are answered 500. *)
Example thrown_cases :
  app POST_todos (env Sample.add_undated) (request Sample.add_undated)
    Sample.one_todo
  = Some (Sample.one_todo, Response.mk 500 Response.error_page)
  ∧ app PUT_todos (env Sample.undate_milk) (request Sample.undate_milk)
      Sample.one_todo
    = Some (mkState
              [User.mk "uuid-1" (Str "Ana") (Str "ana") [0] (Some (Some 0))]
              [Todo.mk "uuid-2" (Str "buy soy milk") false
                 (DateOf (Str "2024-01-01")) (DateNow 200)],
            Response.mk 500 Response.error_page).
Proof. split; reflexivity. Qed.

(** The session of the specification: register, create, complete, delete,
    list. *)
Example end_to_end :
  app POST_users (env Sample.signup_ana) (request Sample.signup_ana) init
  = Some (Sample.registered,
          Response.mk 201
            (Response.user (User.mk "uuid-1" (Str "Ana") (Str "ana") [] None)))
  ∧ app POST_todos (env Sample.add_milk) (request Sample.add_milk)
      Sample.registered
    = Some (Sample.one_todo,
            Response.mk 201
              (Response.todo
                 (Todo.mk "uuid-2" (Str "buy milk") false
                    (DateOf (Str "2024-01-01")) (DateNow 200))))
  ∧ app PATCH_todos_done Sample.later (Sample.by_ana empty_body "uuid-2")
      Sample.one_todo
    = Some (Sample.milk_done,
            Response.mk 200
              (Response.todo
                 (Todo.mk "uuid-2" (Str "buy milk") true
                    (DateOf (Str "2024-01-01")) (DateNow 200))))
  ∧ app DELETE_todos Sample.later (Sample.by_ana empty_body "uuid-2")
      Sample.milk_done
    = Some (step Sample.milk_done Sample.remove_milk,
            Response.mk 204 Response.empty)
  ∧ app GET_todos Sample.later (Sample.by_ana empty_body "")
      (step Sample.milk_done Sample.remove_milk)
    = Some (step Sample.milk_done Sample.remove_milk,
            Response.mk 200 (Response.todo_list [])).
Proof. repeat split; reflexivity. Qed.

(** In a reachable state every request is answered, by a handler or, when
    [new Date] throws, by Express: no handler reads an object that is not
    there. *)
Lemma app_answers route env request s :
  reachable s → is_Some (app route env request s).
Proof.
  intros Hwf%wf_reachable.
  destruct (todo_route route) eqn:Hroute.
  - rewrite app_guarded by done.
    destruct (resolve request s) as [u|] eqn:Hres; [|done].
    apply resolve_Some in Hres as (user & Huser & _).
    destruct (deadline_throws (Request.set_user u request)) eqn:Hdate;
      destruct (id_cases (Request.set_user u request) s user)
        as [Habs|(k & l & x & Hfirst)];
      destruct route; try done; simpl.
    all: try (destruct (todos_of_is_Some s u user Hwf Huser) as [ts Hts];
              by erewrite get_todos_exec).
    all: try by erewrite post_todos_thrown.
    all: try by erewrite post_todos_exec.
    all: try by erewrite put_todos_missing.
    all: try by erewrite patch_todos_done_missing.
    all: try by erewrite delete_todos_missing.
    all: try by erewrite patch_todos_done_found.
    all: try by erewrite delete_todos_found.
    + by erewrite put_todos_thrown.
    + by erewrite put_todos_found.
  - destruct route; try done. simpl. unfold post_users.
    by destruct (Array.find _ (users s)).
Qed.

(** * The properties of the specification *)

(** ** Failing operations *)

(** C2. For a resolved user and an identifier that no [Todo] of the user's
    [todos] carries, [PUT /todos/:id], [PATCH /todos/:id/done] and
    [DELETE /todos/:id] each answer with status 404, and afterwards every
    [todos] array holds the references it held and every [Todo] object is as
    it was. *)
Theorem unknown_id_not_found route env request s u user :
  route = PUT_todos ∨ route = PATCH_todos_done ∨ route = DELETE_todos →
  resolve request s = Some u →
  users s !! u = Some user →
  id_absent s user (Params.id (Request.params request)) →
  ∃ s' r,
    app route env request s = Some (s', r)
    ∧ Response.status r = 404
    ∧ heap s' = heap s
    ∧ table s' = table s
    ∧ ∀ v, todos_of s' v = todos_of s v.
Proof.
  intros Hroute Hres Huser Habs.
  assert (∃ s', app route env request s = Some (s', todo_not_found)
            ∧ heap s' = heap s ∧ table s' = table s) as (s' & Happ & Hh & Ht).
  { destruct Hroute as [->|[->| ->]]; rewrite app_guarded, Hres by done; simpl.
    - erewrite put_todos_missing by done. eexists. split_and!; [done..|].
      by eapply table_with_user_same.
    - erewrite patch_todos_done_missing by done. eexists. split_and!; [done..|].
      by eapply table_with_user_same.
    - erewrite delete_todos_missing by done. eauto. }
  exists s', todo_not_found. split_and!; try done.
  by apply todos_of_same.
Qed.

Lemma unknown_id_not_found_witness :
  ∃ s' r,
    app DELETE_todos Sample.later (Sample.by_ana empty_body "uuid-7")
      Sample.one_todo = Some (s', r)
    ∧ Response.status r = 404
    ∧ heap s' = heap Sample.one_todo
    ∧ table s' = table Sample.one_todo
    ∧ ∀ v, todos_of s' v = todos_of Sample.one_todo v.
Proof.
  eapply (unknown_id_not_found DELETE_todos Sample.later
            (Sample.by_ana empty_body "uuid-7") Sample.one_todo 0).
  - auto.
  - reflexivity.
  - reflexivity.
  - apply id_absent_find. reflexivity.
Defined.

(** ** Deleting *)

(** C4. For a resolved user and an identifier carried by some [Todo] of the
    user's [todos], [DELETE /todos/:id] answers 204 with no body and removes
    the first entry whose [Todo] carries the identifier, and only that one:
    the entries before it and after it stay, in their order. *)
Theorem delete_removes_one env request s u user :
  resolve request s = Some u →
  users s !! u = Some user →
  (∃ l x, l ∈ User.todos user ∧ heap s !! l = Some x
          ∧ Todo.id x = Params.id (Request.params request)) →
  ∃ k l x s' user',
    id_first_at s user (Params.id (Request.params request)) k l x
    ∧ app DELETE_todos env request s
      = Some (s', Response.mk 204 Response.empty)
    ∧ users s' !! u = Some user'
    ∧ User.todos user'
      = take k (User.todos user) ++ drop (S k) (User.todos user)
    ∧ length (User.todos user') + 1 = length (User.todos user)
    ∧ heap s' = heap s
    ∧ (∀ v, v ≠ u → users s' !! v = users s !! v)
    ∧ ∀ ts, todos_of s u = Some ts →
        ts !! k = Some x ∧ todos_of s' u = Some (take k ts ++ drop (S k) ts).
Proof.
  intros Hres Huser (l0 & x0 & Hl0 & Hx0 & Hid0).
  destruct (id_present_first s user (Params.id (Request.params request)) l0 x0)
    as (k & l & x & Hfirst); [done..|].
  exists k, l, x. eexists _, _. split; [done|].
  rewrite app_guarded, Hres by done. simpl.
  erewrite delete_todos_found by done.
  pose proof Hfirst as (Hk & Hx & _).
  split_and!; [done|by eapply with_user_lookup|..].
  - simpl. apply delete_take_drop.
  - simpl. rewrite length_delete by eauto. apply lookup_lt_Some in Hk. lia.
  - done.
  - intros v Hv. by apply with_user_lookup_ne.
  - intros ts Hts. rewrite (todos_of_user _ _ user) in Hts by done.
    split.
    + apply deref_Some in Hts as [Hlen Hts].
      destruct (lookup_lt_is_Some_2 ts k) as [y Hy].
      { rewrite <-Hlen. eauto using lookup_lt_Some. }
      rewrite Hy. f_equal. specialize (Hts _ _ _ Hk Hy). congruence.
    + erewrite todos_of_user by by eapply with_user_lookup.
      simpl. rewrite <-delete_take_drop. by apply deref_delete.
Qed.

Lemma delete_removes_one_witness :
  ∃ k l x s' user',
    id_first_at Sample.two_todos
      (User.mk "uuid-1" (Str "Ana") (Str "ana") [0; 1] None) "uuid-2" k l x
    ∧ app DELETE_todos Sample.later (Sample.by_ana empty_body "uuid-2")
        Sample.two_todos
      = Some (s', Response.mk 204 Response.empty)
    ∧ users s' !! 0 = Some user'
    ∧ User.todos user' = take k [0; 1] ++ drop (S k) [0; 1]
    ∧ length (User.todos user') + 1 = 2
    ∧ heap s' = heap Sample.two_todos
    ∧ (∀ v, v ≠ 0 → users s' !! v = users Sample.two_todos !! v)
    ∧ ∀ ts, todos_of Sample.two_todos 0 = Some ts →
        ts !! k = Some x ∧ todos_of s' 0 = Some (take k ts ++ drop (S k) ts).
Proof.
  apply (delete_removes_one Sample.later (Sample.by_ana empty_body "uuid-2")
           Sample.two_todos 0
           (User.mk "uuid-1" (Str "Ana") (Str "ana") [0; 1] None)).
  - reflexivity.
  - reflexivity.
  - exists 0, (new_todo (env Sample.add_milk) (request Sample.add_milk)).
    split; [|split; reflexivity]. apply list_elem_of_here.
Defined.

(** ** The [todo] property of a user *)

(** C9. On a resolved user, [PUT /todos/:id] and [PATCH /todos/:id/done]
    always assign the property [todo] of the user: [undefined] when they
    answer 404, the reference of the matched [Todo] otherwise.  With a matched
    [Todo] they answer 200 with that object as they leave it, except that
    [PUT /todos/:id] answers 500 when [new Date] throws on the [deadline],
    after it has assigned the property and the [title].  Nothing else of the
    user record changes, and a user on whom the property did not exist is
    changed by the call whatever the answer. *)
Theorem update_and_complete_assign_todo route env request s u user :
  route = PUT_todos ∨ route = PATCH_todos_done →
  resolve request s = Some u →
  users s !! u = Some user →
  ∃ s' r found,
    app route env request s = Some (s', r)
    ∧ users s' !! u = Some (User.set_todo found user)
    ∧ match found with
      | None =>
          id_absent s user (Params.id (Request.params request))
          ∧ Response.status r = 404
      | Some l =>
          ∃ k x x',
            id_first_at s user (Params.id (Request.params request)) k l x
            ∧ heap s' !! l = Some x'
            ∧ if date_throws route request
              then r = uncaught ∧ x' = retitled request x
              else Response.status r = 200 ∧ Response.body r = Response.todo x'
      end
    ∧ (User.todo user = None → s' ≠ s).
Proof.
  intros Hroute Hres Huser.
  assert (∀ s' found, users s' !! u = Some (User.set_todo found user) →
            User.todo user = None → s' ≠ s) as Hchanged.
  { intros s' found Hu' Hnone ->. rewrite Huser in Hu'.
    injection Hu' as Hu'. by rewrite Hu' in Hnone. }
  destruct (id_cases request s user) as [Habs|(k & l & x & Hfirst)].
  - assert (app route env request s
            = Some (with_user u (User.set_todo None user) s, todo_not_found))
      as Happ.
    { destruct Hroute as [->| ->]; rewrite app_guarded, Hres by done; simpl.
      - by erewrite put_todos_missing.
      - by erewrite patch_todos_done_missing. }
    eexists _, _, None. split; [done|].
    assert (users (with_user u (User.set_todo None user) s) !! u
            = Some (User.set_todo None user)) by by eapply with_user_lookup.
    split_and!; eauto.
  - pose proof Hfirst as (Hk & Hx & _).
    assert (l < length (heap s)) by eauto using lookup_lt_Some.
    assert (∀ y, users (set_heap (<[l := y]> (heap s))
                   (with_user u (User.set_todo (Some l) user) s)) !! u
                 = Some (User.set_todo (Some l) user)) as Hu'
      by (intros y; by eapply with_user_lookup).
    destruct Hroute as [->| ->]; rewrite app_guarded, Hres by done; simpl.
    + destruct (deadline_throws request) eqn:Hdate.
      * erewrite put_todos_thrown by done.
        eexists _, _, (Some l). split; [done|].
        split_and!; [done| |by eauto].
        exists k, x, (retitled request x). split_and!; try done.
        by apply list_lookup_insert_eq.
      * erewrite put_todos_found by done.
        eexists _, _, (Some l). split; [done|].
        split_and!; [done| |by eauto].
        exists k, x, (updated request x). split_and!; try done.
        by apply list_lookup_insert_eq.
    + erewrite patch_todos_done_found by done.
      eexists _, _, (Some l). split; [done|].
      split_and!; [done| |by eauto].
      exists k, x, (Todo.set_done true x). split_and!; try done.
      by apply list_lookup_insert_eq.
Qed.

Lemma update_and_complete_assign_todo_witness :
  ∃ s' r found,
    app PUT_todos Sample.later (Sample.by_ana Sample.no_date "uuid-2")
      Sample.one_todo = Some (s', r)
    ∧ users s' !! 0
      = Some (User.set_todo found
                (User.mk "uuid-1" (Str "Ana") (Str "ana") [0] None))
    ∧ match found with
      | None =>
          id_absent Sample.one_todo
            (User.mk "uuid-1" (Str "Ana") (Str "ana") [0] None) "uuid-2"
          ∧ Response.status r = 404
      | Some l =>
          ∃ k x x',
            id_first_at Sample.one_todo
              (User.mk "uuid-1" (Str "Ana") (Str "ana") [0] None) "uuid-2" k l x
            ∧ heap s' !! l = Some x'
            ∧ if date_throws PUT_todos (Sample.by_ana Sample.no_date "uuid-2")
              then r = uncaught
                   ∧ x' = retitled (Sample.by_ana Sample.no_date "uuid-2") x
              else Response.status r = 200 ∧ Response.body r = Response.todo x'
      end
    ∧ (@None (option loc) = None → s' ≠ Sample.one_todo).
Proof.
  apply (update_and_complete_assign_todo PUT_todos Sample.later
           (Sample.by_ana Sample.no_date "uuid-2") Sample.one_todo 0
           (User.mk "uuid-1" (Str "Ana") (Str "ana") [0] None)).
  - auto.
  - reflexivity.
  - reflexivity.
Defined.

(** ** Completing *)

(** Once [done], a [Todo] object stays [done] whatever a request does; its
    identifier and creation date never change either. *)
Lemma effect_keeps_done env request s s' l x :
  effect env request s s' →
  heap s !! l = Some x → Todo.done x = true →
  ∃ x', heap s' !! l = Some x' ∧ Todo.done x' = true
        ∧ Todo.id x' = Todo.id x ∧ Todo.created_at x' = Todo.created_at x.
Proof.
  intros H Hl Hdone.
  destruct H as [|?|v user ?|v user ? ?|v user k l' y ? (_ & Hy & _)
                |v user k l' y ? (_ & Hy & _)|v user k l' y ? (_ & Hy & _)
                |v user k l' y ? ?]; simpl;
    try (by exists x; eauto using lookup_app_l_Some).
  - destruct (decide (l' = l)) as [->|Hne].
    + assert (y = x) as -> by congruence.
      exists (updated request x). split_and!; try done.
      apply list_lookup_insert_eq. eauto using lookup_lt_Some.
    + exists x. by rewrite list_lookup_insert_ne.
  - destruct (decide (l' = l)) as [->|Hne].
    + assert (y = x) as -> by congruence.
      exists (retitled request x). split_and!; try done.
      apply list_lookup_insert_eq. eauto using lookup_lt_Some.
    + exists x. by rewrite list_lookup_insert_ne.
  - destruct (decide (l' = l)) as [->|Hne].
    + assert (y = x) as -> by congruence.
      exists (Todo.set_done true x). split_and!; try done.
      apply list_lookup_insert_eq. eauto using lookup_lt_Some.
    + exists x. by rewrite list_lookup_insert_ne.
Qed.

(** C3. For a resolved user and an identifier carried by some [Todo] of the
    user's [todos], [PATCH /todos/:id/done] answers 200 with that [Todo], its
    [done] now [true]; the same request served again gives the same answer
    and leaves the state exactly as the first call left it.  And no request on
    any route, nor any run of requests, takes a [Todo] whose [done] is [true]
    back to [false]. *)
Theorem complete_idempotent_and_done_monotone :
  (∀ env env' request s u user,
     resolve request s = Some u →
     users s !! u = Some user →
     (∃ l x, l ∈ User.todos user ∧ heap s !! l = Some x
             ∧ Todo.id x = Params.id (Request.params request)) →
     ∃ k l x s',
       id_first_at s user (Params.id (Request.params request)) k l x
       ∧ app PATCH_todos_done env request s
         = Some (s', Response.mk 200 (Response.todo (Todo.set_done true x)))
       ∧ heap s' !! l = Some (Todo.set_done true x)
       ∧ Todo.done (Todo.set_done true x) = true
       ∧ app PATCH_todos_done env' request s'
         = Some (s', Response.mk 200 (Response.todo (Todo.set_done true x))))
  ∧ (∀ route env request s s' r l x,
       app route env request s = Some (s', r) →
       heap s !! l = Some x → Todo.done x = true →
       ∃ x', heap s' !! l = Some x' ∧ Todo.done x' = true)
  ∧ (∀ s es l x,
       heap s !! l = Some x → Todo.done x = true →
       ∃ x', heap (run s es) !! l = Some x' ∧ Todo.done x' = true).
Proof.
  split_and!.
  - intros env env' request s u user Hres Huser (l0 & x0 & Hl0 & Hx0 & Hid0).
    destruct (id_present_first s user (Params.id (Request.params request)) l0 x0)
      as (k & l & x & Hfirst); [done..|].
    pose proof Hfirst as (Hk & Hx & Hid & _).
    assert (l < length (heap s)) as Hlt by eauto using lookup_lt_Some.
    set (user' := User.set_todo (Some l) user).
    set (s' := set_heap (<[l := Todo.set_done true x]> (heap s))
                 (with_user u user' s)).
    assert (app PATCH_todos_done env request s
            = Some (s', Response.json (Response.todo (Todo.set_done true x))))
      as Hfirst_call.
    { rewrite app_guarded, Hres by done. simpl.
      by erewrite patch_todos_done_found. }
    assert (heap s' !! l = Some (Todo.set_done true x)) as Hx'
      by by apply list_lookup_insert_eq.
    exists k, l, x, s'. split_and!; try done.
    assert (resolve request s' = Some u) as Hres'.
    { rewrite <-Hres. apply resolve_usernames. subst s'. simpl.
      by eapply usernames_with_user. }
    assert (users s' !! u = Some user') as Huser'
      by by eapply with_user_lookup.
    assert (id_first_at s' user' (Params.id (Request.params request)) k l
              (Todo.set_done true x)) as Hfirst'.
    { eapply id_first_at_ids; [done| |done..]. by eapply ids_insert. }
    rewrite app_guarded, Hres' by done. simpl.
    erewrite patch_todos_done_found by done.
    do 2 f_equal. subst s'. unfold set_heap, with_user, set_users. simpl.
    by rewrite !list_insert_insert_eq.
  - intros route env request s s' r l x Happ Hl Hdone.
    destruct (effect_keeps_done env request s s' l x) as (x' & ? & ? & _);
      [by eapply app_effect|done..|]. eauto.
  - intros s es. revert s. induction es as [|e es IH]; intros s l x Hl Hdone.
    + eauto.
    + destruct (effect_keeps_done (env e) (request e) s (step s e) l x)
        as (x' & Hl' & Hdone' & _); [apply step_effect|done..|].
      simpl. eapply IH; eauto.
Qed.

Lemma complete_idempotent_and_done_monotone_witness :
  (∃ k l x s',
     id_first_at Sample.one_todo
       (User.mk "uuid-1" (Str "Ana") (Str "ana") [0] None) "uuid-2" k l x
     ∧ app PATCH_todos_done Sample.later (Sample.by_ana empty_body "uuid-2")
         Sample.one_todo
       = Some (s', Response.mk 200 (Response.todo (Todo.set_done true x)))
     ∧ heap s' !! l = Some (Todo.set_done true x)
     ∧ Todo.done (Todo.set_done true x) = true
     ∧ app PATCH_todos_done Sample.later (Sample.by_ana empty_body "uuid-2") s'
       = Some (s', Response.mk 200 (Response.todo (Todo.set_done true x))))
  ∧ (∃ x', heap (step Sample.milk_done Sample.rename_milk) !! 0 = Some x'
           ∧ Todo.done x' = true)
  ∧ (∃ x', heap (run Sample.milk_done [Sample.add_bread; Sample.rename_milk])
             !! 0 = Some x'
           ∧ Todo.done x' = true).
Proof.
  split_and!.
  - apply (proj1 complete_idempotent_and_done_monotone Sample.later
             Sample.later (Sample.by_ana empty_body "uuid-2")
             Sample.one_todo 0
             (User.mk "uuid-1" (Str "Ana") (Str "ana") [0] None)).
    + reflexivity.
    + reflexivity.
    + exists 0, (new_todo (env Sample.add_milk) (request Sample.add_milk)).
      split; [|split; reflexivity]. apply list_elem_of_here.
  - eapply (proj1 (proj2 complete_idempotent_and_done_monotone)
              (route Sample.rename_milk) (env Sample.rename_milk)
              (request Sample.rename_milk) Sample.milk_done).
    + reflexivity.
    + reflexivity.
    + reflexivity.
  - eapply (proj2 (proj2 complete_idempotent_and_done_monotone)
              Sample.milk_done [Sample.add_bread; Sample.rename_milk] 0).
    + reflexivity.
    + reflexivity.
Defined.

(** ** Updating *)

(** C5. In a reachable state, for a resolved user and an identifier carried by
    some [Todo] of the user's [todos], [PUT /todos/:id] succeeds, answering
    200, exactly when [new Date] does not throw on the [deadline] of the
    request.  When it succeeds it answers with the first such [Todo], in which
    [title] and [deadline] are the ones of the request and [id], [done] and
    [created_at] are as before.  The user's [todos] has the same length and
    order, differs at that one position only, and no other user's [todos],
    nor any other [Todo] object, changes. *)
Theorem update_changes_title_and_deadline_only env request s u user :
  reachable s →
  resolve request s = Some u →
  users s !! u = Some user →
  (∃ l x, l ∈ User.todos user ∧ heap s !! l = Some x
          ∧ Todo.id x = Params.id (Request.params request)) →
  ∃ k l x ts s' r,
    id_first_at s user (Params.id (Request.params request)) k l x
    ∧ todos_of s u = Some ts
    ∧ ts !! k = Some x
    ∧ updated request x
      = Todo.mk (Todo.id x) (Body.title (Request.body request)) (Todo.done x)
          (DateOf (Body.deadline (Request.body request))) (Todo.created_at x)
    ∧ app PUT_todos env request s = Some (s', r)
    ∧ (Response.status r = 200 ↔ deadline_throws request = false)
    ∧ (Response.status r = 200 →
       r = Response.mk 200 (Response.todo (updated request x))
       ∧ todos_of s' u = Some (<[k := updated request x]> ts)
       ∧ table s' = table s
       ∧ (∀ v, v ≠ u → todos_of s' v = todos_of s v)
       ∧ (∀ v, v ≠ u → users s' !! v = users s !! v)
       ∧ (∀ l', l' ≠ l → heap s' !! l' = heap s !! l')
       ∧ length (heap s') = length (heap s)).
Proof.
  intros Hwf%wf_reachable Hres Huser (l0 & x0 & Hl0 & Hx0 & Hid0).
  destruct (id_present_first s user (Params.id (Request.params request)) l0 x0)
    as (k & l & x & Hfirst); [done..|].
  pose proof Hfirst as (Hk & Hx & Hid & _).
  destruct (todos_of_is_Some s u user) as [ts Hts]; [done..|].
  assert (ts !! k = Some x) as Htsk.
  { pose proof Hts as [Hlen Hall]%deref_Some.
    destruct (lookup_lt_is_Some_2 ts k) as [y Hy].
    { rewrite <-Hlen. eauto using lookup_lt_Some. }
    rewrite Hy. f_equal. specialize (Hall _ _ _ Hk Hy). congruence. }
  set (user' := User.set_todo (Some l) user).
  destruct (deadline_throws request) eqn:Hdate.
  { exists k, l, x, ts. eexists _, uncaught.
    split; [done|]. split; [by rewrite (todos_of_user _ _ user)|].
    split; [done|]. split; [done|]. split.
    - rewrite app_guarded, Hres by done. simpl.
      by erewrite put_todos_thrown.
    - split; [by split|]. by intros [=]. }
  set (s' := set_heap (<[l := updated request x]> (heap s))
               (with_user u user' s)).
  assert (table s' = table s) as Htable.
  { subst s'. by eapply (table_with_user_same s u user user'). }
  exists k, l, x, ts, s', (Response.mk 200 (Response.todo (updated request x))).
  split_and!; try done.
  - by rewrite (todos_of_user _ _ user).
  - rewrite app_guarded, Hres by done. simpl.
    by erewrite put_todos_found.
  - intros _. split_and!; try done.
    + rewrite (todos_of_user _ _ user') by by eapply with_user_lookup.
      apply deref_insert; [|done..].
      apply (wf_nodup s Hwf u). exact (table_lookup s u user Huser).
    + intros v Hv. rewrite !todos_of_table, Htable.
      pose proof (todos_of_insert_other s u v user l (updated request x)
                    Hwf Huser (list_elem_of_lookup_2 _ _ _ Hk) Hv) as Hother.
      subst s'. simpl.
      destruct (table s !! v); simpl in *; [|done]. congruence.
    + intros v Hv. by apply with_user_lookup_ne.
    + intros l' Hl'. subst s'. simpl. by apply list_lookup_insert_ne.
    + subst s'. simpl. by rewrite length_insert.
Qed.

Lemma update_changes_title_and_deadline_only_witness :
  ∃ k l x ts s' r,
    id_first_at Sample.two_todos
      (User.mk "uuid-1" (Str "Ana") (Str "ana") [0; 1] None) "uuid-3" k l x
    ∧ todos_of Sample.two_todos 0 = Some ts
    ∧ ts !! k = Some x
    ∧ updated (Sample.by_ana (Body.mk Undefined Undefined (Str "buy rye")
                                (Str "2024-02-01")) "uuid-3") x
      = Todo.mk (Todo.id x) (Str "buy rye") (Todo.done x)
          (DateOf (Str "2024-02-01")) (Todo.created_at x)
    ∧ app PUT_todos Sample.later
        (Sample.by_ana (Body.mk Undefined Undefined (Str "buy rye")
                          (Str "2024-02-01")) "uuid-3") Sample.two_todos
      = Some (s', r)
    ∧ (Response.status r = 200 ↔ false = false)
    ∧ (Response.status r = 200 →
       r = Response.mk 200
             (Response.todo
                (updated (Sample.by_ana
                            (Body.mk Undefined Undefined (Str "buy rye")
                               (Str "2024-02-01")) "uuid-3") x))
       ∧ todos_of s' 0
         = Some (<[k := updated (Sample.by_ana
                                   (Body.mk Undefined Undefined (Str "buy rye")
                                      (Str "2024-02-01")) "uuid-3") x]> ts)
       ∧ table s' = table Sample.two_todos
       ∧ (∀ v, v ≠ 0 → todos_of s' v = todos_of Sample.two_todos v)
       ∧ (∀ v, v ≠ 0 → users s' !! v = users Sample.two_todos !! v)
       ∧ (∀ l', l' ≠ l → heap s' !! l' = heap Sample.two_todos !! l')
       ∧ length (heap s') = length (heap Sample.two_todos)).
Proof.
  apply (update_changes_title_and_deadline_only Sample.later
           (Sample.by_ana (Body.mk Undefined Undefined (Str "buy rye")
                             (Str "2024-02-01")) "uuid-3")
           Sample.two_todos 0
           (User.mk "uuid-1" (Str "Ana") (Str "ana") [0; 1] None)).
  - exists [Sample.signup_ana; Sample.add_milk; Sample.add_bread]. reflexivity.
  - reflexivity.
  - reflexivity.
  - exists 1, (new_todo (env Sample.add_bread) (request Sample.add_bread)).
    split; [|split; reflexivity]. apply list_elem_of_further, list_elem_of_here.
Defined.

(** ** Creating and listing *)

(** What [POST /todos] does for the user its header resolves to. *)
Lemma create_appends env request s u ts :
  resolve request s = Some u →
  todos_of s u = Some ts →
  deadline_throws request = false →
  ∃ s',
    app POST_todos env request s
    = Some (s', Response.mk 201 (Response.todo (new_todo env request)))
    ∧ todos_of s' u = Some (ts ++ [new_todo env request])
    ∧ heap s' = heap s ++ [new_todo env request]
    ∧ (∀ request', resolve request' s' = resolve request' s)
    ∧ (∀ v, v ≠ u → users s' !! v = users s !! v).
Proof.
  intros Hres Hts Hdate.
  pose proof Hres as (user & Huser & _)%resolve_Some.
  rewrite (todos_of_user _ _ user) in Hts by done.
  eexists. rewrite app_guarded, Hres by done. simpl.
  erewrite post_todos_exec by done. split; [done|].
  split_and!.
  - erewrite todos_of_user by by eapply with_user_lookup.
    simpl. by apply deref_push.
  - done.
  - intros request'. apply resolve_usernames.
    by apply (usernames_with_user (set_heap _ s) u user).
  - intros v Hv. by rewrite with_user_lookup_ne.
Qed.

(** When [new Date] throws, it does nothing and Express answers. *)
Lemma create_thrown env request s u :
  resolve request s = Some u →
  deadline_throws request = true →
  app POST_todos env request s = Some (s, uncaught).
Proof.
  intros Hres Hdate.
  pose proof Hres as (user & Huser & _)%resolve_Some.
  rewrite app_guarded, Hres by done. simpl.
  by erewrite post_todos_thrown.
Qed.

Lemma created_cons e es :
  created (e :: es) =
  if deadline_throws (request e) then created es
  else new_todo (env e) (request e) :: created es.
Proof.
  unfold created. destruct (deadline_throws (request e)) eqn:E.
  - rewrite filter_cons_False; [done|]. by rewrite E.
  - by rewrite filter_cons_True.
Qed.

(** Allocating an object does not change what a well-formed state shows. *)
Lemma todos_of_alloc s s' v x :
  wf s → users s' !! v = users s !! v → heap s' = heap s ++ [x] →
  todos_of s' v = todos_of s v.
Proof.
  intros Hwf Hv Hh. unfold todos_of. rewrite Hv, Hh.
  destruct (users s !! v) as [user|] eqn:Huser; [|done]. simpl.
  destruct (todos_of_is_Some s v user Hwf Huser) as [ts Hts].
  rewrite Hts. by apply deref_alloc.
Qed.

(** Every identifier carried by a [Todo] object was supplied by [uuidv4()]
    while an earlier request was served. *)
Lemma effect_ids env request s s' :
  effect env request s s' →
  Todo.id <$> heap s' = Todo.id <$> heap s
  ∨ Todo.id <$> heap s' = (Todo.id <$> heap s) ++ [uuidv4 env].
Proof.
  intros H.
  destruct H as [|?|v user ?|v user ? ?|v user k l x ? (_ & Hx & _)
                |v user k l x ? (_ & Hx & _)|v user k l x ? (_ & Hx & _)
                |v user k l x ? ?]; simpl; auto.
  - right. by rewrite fmap_app.
  - left. by eapply ids_insert.
  - left. by eapply ids_insert.
  - left. by eapply ids_insert.
Qed.

Lemma run_ids s es x :
  x ∈ heap (run s es) →
  Todo.id x ∈ (Todo.id <$> heap s) ++ uuids es.
Proof.
  revert s. induction es as [|e es IH]; intros s Hx; simpl in *.
  - rewrite app_nil_r. by apply list_elem_of_fmap_2.
  - apply IH in Hx. rewrite elem_of_app in Hx.
    rewrite elem_of_app, elem_of_cons.
    destruct (effect_ids _ _ _ _ (step_effect s e)) as [Heq|Heq];
      rewrite Heq in Hx; [tauto|].
    rewrite elem_of_app, list_elem_of_singleton in Hx. tauto.
Qed.





(** C8. In a reachable state, for a resolved user, [GET /todos] answers 200
    with the [Todo]s of the user's [todos], one per entry and in stored order
    (none when the array is empty), and changes nothing.  When [POST /todos]
    requests of that user are then served one after the other, a following
    [GET /todos] lists the earlier [Todo]s followed by the created ones in the
    order of their creation; a request on which [new Date] throws creates
    none. *)
Theorem list_returns_todos_in_order :
  (∀ en req s u user,
     reachable s →
     resolve req s = Some u →
     users s !! u = Some user →
     ∃ ts,
       todos_of s u = Some ts
       ∧ app GET_todos en req s
         = Some (s, Response.mk 200 (Response.todo_list ts))
       ∧ length ts = length (User.todos user)
       ∧ (∀ i l, User.todos user !! i = Some l → ts !! i = heap s !! l))
  ∧ (∀ en req s u ts es,
       resolve req s = Some u →
       todos_of s u = Some ts →
       Forall (λ e, route e = POST_todos ∧ resolve (request e) s = Some u) es →
       app GET_todos en req (run s es)
       = Some (run s es,
               Response.mk 200 (Response.todo_list (ts ++ created es)))).
Proof.
  assert (∀ en req s u ts,
            resolve req s = Some u → todos_of s u = Some ts →
            app GET_todos en req s
            = Some (s, Response.mk 200 (Response.todo_list ts))) as Hget.
  { intros en req s u ts Hres Hts.
    pose proof Hres as (user & Huser & _)%resolve_Some.
    rewrite (todos_of_user _ _ user) in Hts by done.
    rewrite app_guarded, Hres by done. simpl.
    by erewrite get_todos_exec. }
  split.
  - intros en req s u user Hwf%wf_reachable Hres Huser.
    destruct (todos_of_is_Some s u user Hwf Huser) as [ts Hts].
    exists ts. rewrite (todos_of_user _ _ user) by done.
    split_and!; [done|..].
    + apply (Hget _ _ _ u); [done|]. by rewrite (todos_of_user _ _ user).
    + apply deref_Some in Hts as [Hlen _]. done.
    + intros i l Hl. apply deref_Some in Hts as [Hlen Hall].
      destruct (lookup_lt_is_Some_2 ts i) as [y Hy].
      { rewrite <-Hlen. eauto using lookup_lt_Some. }
      rewrite Hy. symmetry. eauto.
  - intros en req s u ts es. revert s ts.
    induction es as [|e es IH]; intros s ts Hres Hts Hes.
    + simpl. rewrite app_nil_r. by apply (Hget _ _ _ u).
    + apply Forall_cons in Hes as [[Hroute Hres_e] Hes].
      change (run s (e :: es)) with (run (step s e) es).
      rewrite created_cons.
      destruct (deadline_throws (request e)) eqn:Hdate.
      * assert (step s e = s) as ->.
        { unfold step.
          by rewrite Hroute, (create_thrown _ _ _ u Hres_e Hdate). }
        by apply IH.
      * destruct (create_appends (env e) (request e) s u ts Hres_e Hts Hdate)
          as (s1 & Happ & Hts1 & _ & Hstable & _).
        assert (step s e = s1) as ->.
        { unfold step. by rewrite Hroute, Happ. }
        rewrite (IH s1 (ts ++ [new_todo (env e) (request e)])).
        -- by rewrite <-app_assoc.
        -- by rewrite Hstable.
        -- done.
        -- eapply Forall_impl; [done|]. simpl. intros e' [? ?].
           by rewrite Hstable.
Qed.

Lemma list_returns_todos_in_order_witness :
  (∃ ts,
     todos_of Sample.two_todos 0 = Some ts
     ∧ app GET_todos Sample.later (Sample.by_ana empty_body "")
         Sample.two_todos
       = Some (Sample.two_todos, Response.mk 200 (Response.todo_list ts))
     ∧ length ts = 2
     ∧ (∀ i l, [0; 1] !! i = Some l → ts !! i = heap Sample.two_todos !! l))
  ∧ app GET_todos Sample.later (Sample.by_ana empty_body "")
      (run Sample.registered
         [Sample.add_milk; Sample.add_undated; Sample.add_bread])
    = Some (run Sample.registered
              [Sample.add_milk; Sample.add_undated; Sample.add_bread],
            Response.mk 200
              (Response.todo_list
                 ([] ++ created [Sample.add_milk; Sample.add_undated;
                                 Sample.add_bread]))).
Proof.
  split.
  - apply (proj1 list_returns_todos_in_order Sample.later
             (Sample.by_ana empty_body "") Sample.two_todos 0
             (User.mk "uuid-1" (Str "Ana") (Str "ana") [0; 1] None)).
    + exists [Sample.signup_ana; Sample.add_milk; Sample.add_bread].
      reflexivity.
    + reflexivity.
    + reflexivity.
  - apply (proj2 list_returns_todos_in_order Sample.later
             (Sample.by_ana empty_body "") Sample.registered 0 []
             [Sample.add_milk; Sample.add_undated; Sample.add_bread]).
    + reflexivity.
    + reflexivity.
    + repeat constructor.
Defined.

(** ** Registering users *)

Lemma username_taken_find s v :
  username_taken s v ↔
  is_Some (Array.find (λ user, strict_eq (User.username user) v) (users s)).
Proof.
  rewrite <-not_eq_None_Some, find_None, find_pos_None. split.
  - intros (user & Hin & Heq) Hnone. rewrite (Hnone user Hin) in Heq. done.
  - intros Hsome.
    destruct (decide (Exists (λ user, strict_eq (User.username user) v = true)
                        (users s))) as [Hex|Hnex].
    + apply Exists_exists in Hex. done.
    + destruct Hsome. intros user Hin.
      destruct (strict_eq (User.username user) v) eqn:E; [|done].
      destruct Hnex. apply Exists_exists. eauto.
Qed.

Lemma post_users_taken env request s :
  username_taken s (Body.username (Request.body request)) →
  app POST_users env request s = Some (s, user_exists).
Proof.
  intros [user Hfind]%username_taken_find. simpl. unfold post_users.
  by rewrite Hfind.
Qed.

Lemma post_users_free env request s :
  ¬ username_taken s (Body.username (Request.body request)) →
  app POST_users env request s
  = Some (set_users (Array.push (new_user env request) (users s)) s,
          Response.mk 201 (Response.user (new_user env request))).
Proof.
  rewrite username_taken_find, <-eq_None_not_Some. intros Hfind.
  simpl. unfold post_users. by rewrite Hfind.
Qed.

Lemma effect_usernames env request s s' :
  effect env request s s' →
  User.username <$> users s' = User.username <$> users s
  ∨ (¬ username_taken s (Body.username (Request.body request))
     ∧ users s' = users s ++ [new_user env request]).
Proof.
  intros H.
  destruct H as [|Hnone|v user ?|v user ? ?|v user k l x ? ?
                |v user k l x ? ?|v user k l x ? ?|v user k l x ? ?];
    simpl; auto.
  - right. split; [|done].
    rewrite username_taken_find, <-eq_None_not_Some. by apply find_None.
  - left.
    by apply (usernames_with_user (set_heap (heap s ++ [new_todo env request]) s)
                v user).
  - left. by apply (usernames_with_user s v user).
  - left. by apply (usernames_with_user s v user).
  - left. by apply (usernames_with_user s v user).
  - left. by apply (usernames_with_user s v user).
  - left. by apply (usernames_with_user s v user).
Qed.

Lemma unique_usernames_effect env request s s' :
  effect env request s s' → unique_usernames s → unique_usernames s'.
Proof.
  intros [Hsame|[Hfree Hpush]]%effect_usernames Huniq i j ui uj Hi Hj Heq.
  - assert (∀ n un, users s' !! n = Some un →
              ∃ un0, users s !! n = Some un0
                     ∧ User.username un0 = User.username un) as Hback.
    { intros n un Hn.
      assert ((User.username <$> users s) !! n = Some (User.username un)) as H0
        by by rewrite <-Hsame, list_lookup_fmap, Hn.
      rewrite list_lookup_fmap in H0.
      destruct (users s !! n) as [un0|]; simplify_eq/=. eauto. }
    destruct (Hback _ _ Hi) as (ui0 & Hi0 & Hui).
    destruct (Hback _ _ Hj) as (uj0 & Hj0 & Huj).
    apply (Huniq i j ui0 uj0); [done..|]. by rewrite Hui, Huj.
  - rewrite Hpush in Hi, Hj.
    apply lookup_snoc_Some in Hi as [[Hilt Hi]|[-> <-]];
      apply lookup_snoc_Some in Hj as [[Hjlt Hj]|[-> <-]].
    + eauto.
    + destruct Hfree. exists ui. eauto using list_elem_of_lookup_2.
    + destruct Hfree. exists uj. split; [eauto using list_elem_of_lookup_2|].
      by rewrite strict_eq_sym.
    + done.
Qed.

Lemma unique_usernames_reachable s : reachable s → unique_usernames s.
Proof.
  intros [es <-].
  assert (∀ s, unique_usernames s → unique_usernames (run s es)) as Hrun.
  { induction es as [|e es IH]; intros s Hs; [done|].
    simpl. apply IH. eapply unique_usernames_effect; [apply step_effect|done]. }
  apply Hrun. intros i j ui uj Hi. simpl in Hi. by rewrite lookup_nil in Hi.
Qed.

(** At most one element of a list satisfies a property that no two positions
    share. *)
Lemma filter_at_most_one {A} (P : A → Prop) `{!∀ x, Decision (P x)}
    (l : list A) :
  (∀ i j x y, l !! i = Some x → l !! j = Some y → P x → P y → i = j) →
  length (filter P l) ≤ 1.
Proof.
  induction l as [|a l IH]; intros Huniq; [simpl; lia|].
  rewrite filter_cons. destruct (decide (P a)) as [Ha|Ha].
  - assert (filter P l = []) as ->; [|simpl; lia].
    apply elem_of_nil_inv.
    intros y [Hy [j Hj]%list_elem_of_lookup]%list_elem_of_filter.
    by specialize (Huniq 0 (S j) a y eq_refl Hj Ha Hy).
  - apply IH. intros i j x y Hi Hj Hx Hy.
    by specialize (Huniq (S i) (S j) x y Hi Hj Hx Hy) as [= ->].
Qed.

Lemma holders_at_most_one s v :
  unique_usernames s → length (holders s v) ≤ 1.
Proof.
  intros Huniq. apply filter_at_most_one. intros i j x y Hi Hj Hx Hy.
  apply (Huniq i j x y Hi Hj). apply (strict_eq_trans _ v); [done|].
  by rewrite strict_eq_sym.
Qed.

Lemma holders_at_least_one s v :
  username_taken s v → 1 ≤ length (holders s v).
Proof.
  intros (user & Hin & Heq).
  assert (user ∈ holders s v) as Hh by by apply list_elem_of_filter.
  destruct (holders s v); [by apply elem_of_nil in Hh|simpl; lia].
Qed.

(** C1. In every reachable state no two users have strictly equal usernames.
    [POST /users] with a username that a stored user already has answers 400
    and changes nothing; otherwise it appends a user with that name and
    username and an empty [todos], and answers 201 with it.  Hence after two
    registrations in a row with a username [v] (any value that is strictly
    equal to itself, as every string is) the second one answers 400, changes
    nothing, and exactly one stored user has the username [v]. *)
Theorem usernames_are_unique :
  (∀ s, reachable s → unique_usernames s)
  ∧ (∀ s i j ui uj a b,
       reachable s → users s !! i = Some ui → users s !! j = Some uj →
       User.username ui = Str a → User.username uj = Str b → i ≠ j → a ≠ b)
  ∧ (∀ env req s,
       username_taken s (Body.username (Request.body req)) →
       ∃ r, app POST_users env req s = Some (s, r) ∧ Response.status r = 400)
  ∧ (∀ env req s,
       ¬ username_taken s (Body.username (Request.body req)) →
       ∃ user,
         user = User.mk (uuidv4 env) (Body.name (Request.body req))
                  (Body.username (Request.body req)) [] None
         ∧ app POST_users env req s
           = Some (mkState (users s ++ [user]) (heap s),
                   Response.mk 201 (Response.user user)))
  ∧ (∀ env1 env2 req1 req2 s v,
       reachable s →
       Body.username (Request.body req1) = v →
       Body.username (Request.body req2) = v →
       strict_eq v v = true →
       ∃ s1 r1 r2,
         app POST_users env1 req1 s = Some (s1, r1)
         ∧ app POST_users env2 req2 s1 = Some (s1, r2)
         ∧ Response.status r2 = 400
         ∧ length (holders s1 v) = 1).
Proof.
  split_and!.
  - apply unique_usernames_reachable.
  - intros s i j ui uj a b Hs%unique_usernames_reachable Hi Hj Ha Hb Hne ->.
    apply Hne, (Hs i j ui uj); [done..|].
    rewrite Ha, Hb. apply strict_eq_refl_str.
  - intros env req s Htaken. exists user_exists.
    by rewrite post_users_taken.
  - intros env req s Hfree. eexists. split; [done|].
    by rewrite post_users_free.
  - intros env1 env2 req1 req2 s v Hs Hv1 Hv2 Hrefl.
    assert (∃ s1 r1, app POST_users env1 req1 s = Some (s1, r1)
                     ∧ username_taken s1 v) as (s1 & r1 & Happ1 & Htaken).
    { destruct (decide (Exists (λ user, strict_eq (User.username user) v = true)
                          (users s))) as [Hex|Hnex].
      - apply Exists_exists in Hex.
        exists s, user_exists. split; [|done].
        apply post_users_taken. by rewrite Hv1.
      - eexists _, _. split.
        + apply post_users_free. rewrite Hv1. intros Hex. apply Hnex.
          by apply Exists_exists.
        + exists (new_user env1 req1). simpl. split.
          * unfold Array.push. apply elem_of_app. right.
            by apply list_elem_of_singleton.
          * by rewrite Hv1. }
    exists s1, r1, user_exists. split_and!; [done| |done|].
    + apply post_users_taken. by rewrite Hv2.
    + apply Nat.le_antisymm.
      * apply holders_at_most_one, unique_usernames_reachable.
        by eapply reachable_app.
      * by apply holders_at_least_one.
Qed.

Lemma usernames_are_unique_witness :
  unique_usernames Sample.two_users
  ∧ "ana" ≠ "bob"
  ∧ (∃ r, app POST_users Sample.later (request Sample.signup_ana)
            Sample.registered = Some (Sample.registered, r)
          ∧ Response.status r = 400)
  ∧ (∃ user,
       user = User.mk "uuid-5" (Str "Bob") (Str "bob") [] None
       ∧ app POST_users (env Sample.signup_bob) (request Sample.signup_bob)
           Sample.registered
         = Some (mkState (users Sample.registered ++ [user])
                   (heap Sample.registered),
                 Response.mk 201 (Response.user user)))
  ∧ (∃ s1 r1 r2,
       app POST_users (env Sample.signup_ana) (request Sample.signup_ana) init
       = Some (s1, r1)
       ∧ app POST_users Sample.later (request Sample.signup_ana) s1
         = Some (s1, r2)
       ∧ Response.status r2 = 400
       ∧ length (holders s1 (Str "ana")) = 1).
Proof.
  assert (reachable Sample.two_users) as Htwo.
  { exists [Sample.signup_ana; Sample.signup_bob]. reflexivity. }
  split_and!.
  - apply (proj1 usernames_are_unique Sample.two_users Htwo).
  - apply (proj1 (proj2 usernames_are_unique) Sample.two_users 0 1
             (User.mk "uuid-1" (Str "Ana") (Str "ana") [] None)
             (User.mk "uuid-5" (Str "Bob") (Str "bob") [] None)
             "ana" "bob" Htwo); [reflexivity..|lia].
  - apply (proj1 (proj2 (proj2 usernames_are_unique)) Sample.later
             (request Sample.signup_ana) Sample.registered).
    exists (User.mk "uuid-1" (Str "Ana") (Str "ana") [] None).
    split; [apply list_elem_of_here|reflexivity].
  - apply (proj1 (proj2 (proj2 (proj2 usernames_are_unique)))
             (env Sample.signup_bob) (request Sample.signup_bob)
             Sample.registered).
    intros [? H]%username_taken_find. vm_compute in H. discriminate H.
  - apply (proj2 (proj2 (proj2 (proj2 usernames_are_unique)))
             (env Sample.signup_ana) Sample.later
             (request Sample.signup_ana) (request Sample.signup_ana)
             init (Str "ana")).
    + exists []. reflexivity.
    + reflexivity.
    + reflexivity.
    + reflexivity.
Defined.

(** ** Resolving the acting user *)

(** C6, as the code has it.  When the value of the [username] header
    ([undefined] when the header is not sent) is strictly equal to the
    username of no stored user, the middleware answers 400 whatever handler
    stands behind it, so the handler is not run, and every guarded route
    answers 400 and changes nothing.  When it is strictly equal to the
    username of some stored user, the middleware runs the handler on the
    request with [user] set to the first such user.  So a request is rejected
    when no stored username is the string its header holds, and a request
    without the header when no stored username is [undefined]. *)
Theorem unresolved_requests_are_rejected :
  (∀ req s (next : Handler),
     ¬ username_taken s (header_value (Headers.username (Request.headers req))) →
     checksExistsUserAccount req next s
     = Some (s, Response.mk 400 (Response.error "Usuário não encontrado!")))
  ∧ (∀ route env req s,
       todo_route route = true →
       ¬ username_taken s (header_value (Headers.username (Request.headers req))) →
       app route env req s
       = Some (s, Response.mk 400 (Response.error "Usuário não encontrado!")))
  ∧ (∀ req s (next : Handler),
       username_taken s (header_value (Headers.username (Request.headers req))) →
       ∃ u user,
         checksExistsUserAccount req next s = next (Request.set_user u req) s
         ∧ Request.user (Request.set_user u req) = Some u
         ∧ users s !! u = Some user
         ∧ strict_eq (User.username user)
             (header_value (Headers.username (Request.headers req))) = true
         ∧ ∀ j uj, j < u → users s !! j = Some uj →
             strict_eq (User.username uj)
               (header_value (Headers.username (Request.headers req))) = false)
  ∧ (∀ route env req s,
       todo_route route = true →
       (∀ user, user ∈ users s →
          User.username user
          ≠ header_value (Headers.username (Request.headers req))) →
       app route env req s
       = Some (s, Response.mk 400 (Response.error "Usuário não encontrado!"))).
Proof.
  assert (∀ req s,
            ¬ username_taken s
                (header_value (Headers.username (Request.headers req))) →
            resolve req s = None) as Hnone.
  { intros req s Hfree. apply find_None.
    rewrite username_taken_find, <-eq_None_not_Some in Hfree. done. }
  split_and!.
  - intros req s next Hfree. by rewrite middleware_resolve, Hnone.
  - intros route env req s Hroute Hfree. by rewrite app_guarded, Hnone.
  - intros req s next [user Hfind]%username_taken_find.
    apply find_Some in Hfind as (u & Hpos & Hu).
    pose proof Hpos as (user' & Hu' & Heq & Hmin)%find_pos_Some.
    exists u, user. rewrite middleware_resolve. unfold resolve. rewrite Hpos.
    assert (user' = user) as -> by congruence.
    split_and!; try done. intros j uj Hj Huj. eauto.
  - intros route env req s Hroute Husers.
    rewrite app_guarded by done. rewrite Hnone; [done|].
    intros (user & Hin & Heq%strict_eq_header). by apply (Husers user).
Qed.

Lemma unresolved_requests_are_rejected_witness :
  checksExistsUserAccount (incoming (Some "bob") empty_body "")
    (post_todos Sample.later) Sample.registered
  = Some (Sample.registered,
          Response.mk 400 (Response.error "Usuário não encontrado!"))
  ∧ app GET_todos Sample.later (incoming (Some "bob") empty_body "")
      Sample.registered
    = Some (Sample.registered,
            Response.mk 400 (Response.error "Usuário não encontrado!"))
  ∧ (∃ u user,
       checksExistsUserAccount (Sample.by_ana empty_body "")
         (get_todos Sample.later) Sample.two_users
       = get_todos Sample.later
           (Request.set_user u (Sample.by_ana empty_body ""))
           Sample.two_users
       ∧ Request.user (Request.set_user u (Sample.by_ana empty_body ""))
         = Some u
       ∧ users Sample.two_users !! u = Some user
       ∧ strict_eq (User.username user) (Str "ana") = true
       ∧ ∀ j uj, j < u → users Sample.two_users !! j = Some uj →
           strict_eq (User.username uj) (Str "ana") = false)
  ∧ app POST_todos Sample.later Sample.anonymous Sample.registered
    = Some (Sample.registered,
            Response.mk 400 (Response.error "Usuário não encontrado!")).
Proof.
  assert (¬ username_taken Sample.registered (Str "bob")) as Hbob.
  { intros [? H]%username_taken_find. vm_compute in H. discriminate H. }
  split_and!.
  - apply (proj1 unresolved_requests_are_rejected
             (incoming (Some "bob") empty_body "") Sample.registered
             (post_todos Sample.later) Hbob).
  - apply (proj1 (proj2 unresolved_requests_are_rejected) GET_todos
             Sample.later (incoming (Some "bob") empty_body "")
             Sample.registered eq_refl Hbob).
  - apply (proj1 (proj2 (proj2 unresolved_requests_are_rejected))
             (Sample.by_ana empty_body "") Sample.two_users
             (get_todos Sample.later)).
    exists (User.mk "uuid-1" (Str "Ana") (Str "ana") [] None).
    split; [apply list_elem_of_here|reflexivity].
  - apply (proj2 (proj2 (proj2 unresolved_requests_are_rejected)) POST_todos
             Sample.later Sample.anonymous Sample.registered).
    + reflexivity.
    + intros user Hin%list_elem_of_singleton. by rewrite Hin.
Defined.

(** C6 as the specification states it fails once a user is registered
    without a username: a request that sends no [username] header is then
    resolved to that user, [GET /todos] answers 200 and [POST /todos] answers
    201 and adds a [Todo] to that user's [todos]. *)
Lemma absent_header_resolves_nameless_user :
  reachable Sample.nameless
  ∧ Headers.username (Request.headers Sample.anonymous) = None
  ∧ resolve Sample.anonymous Sample.nameless = Some 0
  ∧ app GET_todos Sample.later Sample.anonymous Sample.nameless
    = Some (Sample.nameless, Response.mk 200 (Response.todo_list []))
  ∧ (∃ s' x,
       app POST_todos Sample.later Sample.anonymous Sample.nameless
       = Some (s', Response.mk 201 (Response.todo x))
       ∧ todos_of Sample.nameless 0 = Some []
       ∧ todos_of s' 0 = Some [x])
  ∧ ¬ (∀ route env req s,
         todo_route route = true → reachable s →
         Headers.username (Request.headers req) = None →
         ∃ r, app route env req s = Some (s, r)
              ∧ 400 ≤ Response.status r < 500).
Proof.
  assert (reachable Sample.nameless) as Hreach.
  { exists [Sample.signup_nobody]. reflexivity. }
  split_and!; try done.
  - eexists _, _. split_and!; reflexivity.
  - intros Hclaim.
    destruct (Hclaim GET_todos Sample.later Sample.anonymous Sample.nameless)
      as (r & Happ & Hstatus); [done..|].
    vm_compute in Happ. injection Happ as <-. simpl in Hstatus. lia.
Qed.

(** C10. [POST /users] inspects nothing of the body but the strict equality of
    its [username] with the stored ones: whatever the [name] and [username]
    fields hold, a user carrying them is stored and sent back with status 201
    unless a stored user has a strictly equal username.  In particular a body
    without [username] registers a user whose username is [undefined], and
    from then on a guarded request that sends no [username] header is
    resolved, to the first such user, and served by its handler. *)
Theorem signup_accepts_any_body :
  (∀ env req s,
     ¬ username_taken s (Body.username (Request.body req)) →
     app POST_users env req s
     = Some (mkState (users s ++ [new_user env req]) (heap s),
             Response.mk 201 (Response.user (new_user env req)))
     ∧ User.name (new_user env req) = Body.name (Request.body req)
     ∧ User.username (new_user env req) = Body.username (Request.body req))
  ∧ (∀ route env en req req' s,
       Body.username (Request.body req) = Undefined →
       (∀ user, user ∈ users s → User.username user ≠ Undefined) →
       Headers.username (Request.headers req') = None →
       todo_route route = true →
       ∃ s1,
         app POST_users env req s
         = Some (s1, Response.mk 201 (Response.user (new_user env req)))
         ∧ users s1 !! length (users s) = Some (new_user env req)
         ∧ User.username (new_user env req) = Undefined
         ∧ resolve req' s1 = Some (length (users s))
         ∧ app route en req' s1
           = downstream route en (Request.set_user (length (users s)) req') s1
         ∧ app GET_todos en req' s1
           = Some (s1, Response.mk 200 (Response.todo_list [])))
  ∧ (∀ es req' s,
       Headers.username (Request.headers req') = None →
       username_taken s Undefined →
       ∃ u user,
         resolve req' (run s es) = Some u
         ∧ users (run s es) !! u = Some user
         ∧ User.username user = Undefined).
Proof.
  split_and!.
  - intros env req s Hfree. by rewrite post_users_free.
  - intros route env en req req' s Hbody Husers Hheader Hroute.
    assert (¬ username_taken s (Body.username (Request.body req))) as Hfree.
    { rewrite Hbody. intros (user & Hin & Heq%strict_eq_undefined).
      by apply (Husers user). }
    set (s1 := set_users (Array.push (new_user env req) (users s)) s).
    exists s1. rewrite post_users_free by done.
    assert (users s1 !! length (users s) = Some (new_user env req)) as Hnew.
    { subst s1. simpl. unfold Array.push. by rewrite list_lookup_middle. }
    assert (resolve req' s1 = Some (length (users s))) as Hres.
    { unfold resolve. rewrite Hheader. simpl. apply find_pos_Some.
      exists (new_user env req). split_and!; [done|by simpl; rewrite Hbody|].
      intros j y Hy Hj. subst s1. simpl in Hy. unfold Array.push in Hy.
      rewrite lookup_app_l in Hy by done.
      destruct (strict_eq (User.username y) Undefined) eqn:E; [|done].
      apply strict_eq_undefined in E.
      destruct (Husers y); eauto using list_elem_of_lookup_2. }
    split_and!; try done.
    + by rewrite app_guarded, Hres.
    + rewrite app_guarded, Hres by done. simpl.
      by erewrite get_todos_exec.
  - intros es req' s Hheader Htaken.
    assert (username_taken (run s es) Undefined) as Htaken'.
    { clear Hheader. revert s Htaken.
      induction es as [|e es IH]; intros s Htaken; [done|].
      simpl. apply IH.
      destruct Htaken as (user & [i Hi]%list_elem_of_lookup & Heq).
      destruct (effect_usernames _ _ _ _ (step_effect s e))
        as [Hsame|[_ Hpush]].
      - assert ((User.username <$> users (step s e)) !! i
                = Some (User.username user)) as H0
          by by rewrite Hsame, list_lookup_fmap, Hi.
        rewrite list_lookup_fmap in H0.
        destruct (users (step s e) !! i) as [user'|] eqn:Hi'; simplify_eq/=.
        exists user'. split; [eauto using list_elem_of_lookup_2|].
        by rewrite H0.
      - exists user. split; [|done]. rewrite Hpush. apply elem_of_app. left.
        eauto using list_elem_of_lookup_2. }
    apply username_taken_find in Htaken' as [user Hfind].
    apply find_Some in Hfind as (u & Hpos & Hu).
    pose proof Hpos as (user' & Hu' & Heq%strict_eq_undefined & _)%find_pos_Some.
    exists u, user'. unfold resolve. rewrite Hheader. by simpl.
Qed.

Lemma signup_accepts_any_body_witness :
  (app POST_users (env Sample.signup_nobody) (request Sample.signup_nobody)
     Sample.registered
   = Some (mkState
             (users Sample.registered
                ++ [new_user (env Sample.signup_nobody)
                      (request Sample.signup_nobody)])
             (heap Sample.registered),
           Response.mk 201
             (Response.user
                (new_user (env Sample.signup_nobody)
                   (request Sample.signup_nobody))))
   ∧ User.name (new_user (env Sample.signup_nobody)
                  (request Sample.signup_nobody)) = Undefined
   ∧ User.username (new_user (env Sample.signup_nobody)
                      (request Sample.signup_nobody)) = Undefined)
  ∧ (∃ s1,
       app POST_users (env Sample.signup_nobody) (request Sample.signup_nobody)
         Sample.registered
       = Some (s1, Response.mk 201
                     (Response.user
                        (new_user (env Sample.signup_nobody)
                           (request Sample.signup_nobody))))
       ∧ users s1 !! 1
         = Some (new_user (env Sample.signup_nobody)
                   (request Sample.signup_nobody))
       ∧ User.username (new_user (env Sample.signup_nobody)
                          (request Sample.signup_nobody)) = Undefined
       ∧ resolve Sample.anonymous s1 = Some 1
       ∧ app DELETE_todos Sample.later Sample.anonymous s1
         = downstream DELETE_todos Sample.later
             (Request.set_user 1 Sample.anonymous) s1
       ∧ app GET_todos Sample.later Sample.anonymous s1
         = Some (s1, Response.mk 200 (Response.todo_list [])))
  ∧ (∃ u user,
       resolve Sample.anonymous
         (run Sample.nameless [Sample.signup_ana; Sample.add_milk]) = Some u
       ∧ users (run Sample.nameless [Sample.signup_ana; Sample.add_milk]) !! u
         = Some user
       ∧ User.username user = Undefined).
Proof.
  split; [|split].
  - apply (proj1 signup_accepts_any_body (env Sample.signup_nobody)
             (request Sample.signup_nobody) Sample.registered).
    intros [? H]%username_taken_find. vm_compute in H. discriminate H.
  - apply (proj1 (proj2 signup_accepts_any_body) DELETE_todos
             (env Sample.signup_nobody) Sample.later
             (request Sample.signup_nobody) Sample.anonymous
             Sample.registered).
    + reflexivity.
    + intros user Hin%list_elem_of_singleton. by rewrite Hin.
    + reflexivity.
    + reflexivity.
  - apply (proj2 (proj2 signup_accepts_any_body)
             [Sample.signup_ana; Sample.add_milk] Sample.anonymous
             Sample.nameless).
    + reflexivity.
    + exists (new_user (env Sample.signup_nobody)
                (request Sample.signup_nobody)).
      split; [apply list_elem_of_here|reflexivity].
Defined.

(** * Further properties of the handlers *)

(** Every answer of [app] is one of the answers of [served]. *)
Lemma app_served route env request s s' r :
  app route env request s = Some (s', r) → served env request s route s' r.
Proof.
  destruct (todo_route route) eqn:Hroute.
  - rewrite app_guarded by done.
    destruct (resolve request s) as [u|] eqn:Hres.
    + pose proof Hres as (user & Huser & _)%resolve_Some. intros Hrun.
      destruct (deadline_throws (Request.set_user u request)) eqn:Hdate;
        destruct (id_cases (Request.set_user u request) s user)
          as [Habs|(k & l & x & Hfirst)];
        destruct route; try done; simpl in Hrun.
      all: try (unfold get_todos in Hrun; simpl in Hrun;
                rewrite Huser in Hrun; simpl in Hrun;
                destruct (mapM _ _) as [ts|] eqn:Hts; simplify_eq/=;
                exact (served_list env request _ u user ts Hres Huser Hts)).
      all: try (rewrite (post_todos_thrown env (Request.set_user u request) s u
                           user eq_refl Huser Hdate) in Hrun; simplify_eq;
                exact (served_create_thrown env request _ u user Hres Huser
                         Hdate)).
      all: try (rewrite (post_todos_exec env (Request.set_user u request) s u user
                           eq_refl Huser Hdate) in Hrun; simplify_eq;
                exact (served_create env request _ u user Hres Huser Hdate)).
      all: try (rewrite (put_todos_missing env (Request.set_user u request) s u
                           user eq_refl Huser Habs) in Hrun; simplify_eq;
                exact (served_update_missing env request _ u user Hres Huser
                         Habs)).
      all: try (rewrite (patch_todos_done_missing env
                           (Request.set_user u request) s u user
                           eq_refl Huser Habs) in Hrun; simplify_eq;
                exact (served_complete_missing env request _ u user Hres Huser
                         Habs)).
      all: try (rewrite (delete_todos_missing env (Request.set_user u request) s
                           u user eq_refl Huser Habs) in Hrun; simplify_eq;
                exact (served_delete_missing env request _ u user Hres Huser
                         Habs)).
      all: try (rewrite (patch_todos_done_found env (Request.set_user u request)
                           s u user eq_refl Huser k l x Hfirst) in Hrun;
                simplify_eq;
                exact (served_complete env request _ u user k l x Hres Huser
                         Hfirst)).
      all: try (rewrite (delete_todos_found env (Request.set_user u request) s u
                           user eq_refl Huser k l x Hfirst) in Hrun;
                simplify_eq;
                exact (served_delete env request _ u user k l x Hres Huser
                         Hfirst)).
      * rewrite (put_todos_thrown env (Request.set_user u request) s u user
                   eq_refl Huser k l x Hfirst Hdate) in Hrun. simplify_eq.
        exact (served_update_thrown env request _ u user k l x Hres Huser
                 Hfirst Hdate).
      * rewrite (put_todos_found env (Request.set_user u request) s u user
                   eq_refl Huser k l x Hfirst Hdate) in Hrun. simplify_eq.
        exact (served_update env request _ u user k l x Hres Huser Hfirst
                 Hdate).
    + intros [= <- <-]. by apply served_unresolved.
  - destruct route; try done.
    destruct (decide (Exists (λ user, strict_eq (User.username user)
                (Body.username (Request.body request)) = true) (users s)))
      as [Hex|Hnex].
    + apply Exists_exists in Hex. rewrite post_users_taken by done.
      intros [= <- <-]. by apply served_conflict.
    + assert (¬ username_taken s (Body.username (Request.body request)))
        as Hfree by (intros Hex; apply Hnex; by apply Exists_exists).
      rewrite post_users_free by done. intros [= <- <-].
      by apply served_signup.
Qed.

(** ** Ownership of the [Todo] objects *)

(** X1. In every reachable state, each reference held in a user's [todos]
    leads to a [Todo] object, occurs at one position of that array only, and
    occurs in the [todos] of no other user. *)
Theorem todos_belong_to_one_user s u user l :
  reachable s →
  users s !! u = Some user →
  l ∈ User.todos user →
  (∃ x, heap s !! l = Some x)
  ∧ (∀ i j, User.todos user !! i = Some l → User.todos user !! j = Some l →
       i = j)
  ∧ (∀ v user', users s !! v = Some user' → l ∈ User.todos user' → v = u).
Proof.
  intros Hwf%wf_reachable Huser Hl.
  pose proof (table_lookup s u user Huser) as Htab.
  split_and!.
  - apply lookup_lt_is_Some. by eapply (wf_alloc s Hwf u).
  - intros i j Hi Hj. eapply NoDup_lookup; [|done..].
    by eapply (wf_nodup s Hwf u).
  - intros v user' Hv Hl'.
    eapply (wf_owner s Hwf v u); eauto using table_lookup.
Qed.

Lemma todos_belong_to_one_user_witness :
  (∃ x, heap Sample.two_todos !! 1 = Some x)
  ∧ (∀ i j, [0; 1] !! i = Some 1 → [0; 1] !! j = Some 1 → i = j)
  ∧ (∀ v user', users Sample.two_todos !! v = Some user' →
       1 ∈ User.todos user' → v = 0).
Proof.
  apply (todos_belong_to_one_user Sample.two_todos 0
           (User.mk "uuid-1" (Str "Ana") (Str "ana") [0; 1] None) 1).
  - exists [Sample.signup_ana; Sample.add_milk; Sample.add_bread]. reflexivity.
  - reflexivity.
  - apply list_elem_of_further, list_elem_of_here.
Defined.

(** ** The answers, route by route *)

(** X2. A route answers a request that reaches it with one of its own status
    codes: 201 or 400 for [POST /users]; 200 or 400 for [GET /todos]; 201, 400
    or 500 for [POST /todos]; 200, 400, 404 or 500 for [PUT]; 200, 400 or 404
    for [PATCH]; 204, 400 or 404 for [DELETE].  With 400 the whole state is as
    before; with 404 every [Todo] object and every [todos] array is.  An
    answer of 500 is the one of Express to a [new Date] that threw: every
    [todos] array is as before, and after [POST /todos] the whole state is. *)
Theorem answers_by_route route env req s s' r :
  app route env req s = Some (s', r) →
  Response.status r
    ∈ match route with
      | POST_users => [201; 400]
      | GET_todos => [200; 400]
      | POST_todos => [201; 400; 500]
      | PUT_todos => [200; 400; 404; 500]
      | PATCH_todos_done => [200; 400; 404]
      | DELETE_todos => [204; 400; 404]
      end
  ∧ (Response.status r = 400 → s' = s)
  ∧ (Response.status r = 404 → heap s' = heap s ∧ table s' = table s)
  ∧ (Response.status r = 500 →
     r = uncaught ∧ date_throws route req = true ∧ table s' = table s
     ∧ (route = POST_todos → s' = s)).
Proof.
  intros Hserved%app_served.
  destruct Hserved as [route Hroute ?|?|?|u user ts ? ? ?|u user ? ? Hdate
                      |u user ? Huser ?|u user ? Huser ?
                      |u user k l x ? Huser ? Hdate|u user k l x ? ? ? ?
                      |u user ? Huser ?|u user k l x ? ? ?
                      |u user ? ? ?|u user k l x ? ? ?]; simpl.
  1: { split_and!; [|done..]. destruct route; try done; in_list. }
  all: split_and!; try in_list; try done.
  - intros _. split; [done|]. by eapply table_with_user_same.
  - intros _. split_and!; [done..| |done].
    by eapply table_with_user_same.
  - intros _. split; [done|]. by eapply table_with_user_same.
Qed.

Lemma answers_by_route_witness :
  Response.status uncaught ∈ [200; 400; 404; 500]
  ∧ (Response.status uncaught = 400 →
     step Sample.one_todo Sample.undate_milk = Sample.one_todo)
  ∧ (Response.status uncaught = 404 →
     heap (step Sample.one_todo Sample.undate_milk) = heap Sample.one_todo
     ∧ table (step Sample.one_todo Sample.undate_milk)
       = table Sample.one_todo)
  ∧ (Response.status uncaught = 500 →
     uncaught = uncaught
     ∧ date_throws PUT_todos (request Sample.undate_milk) = true
     ∧ table (step Sample.one_todo Sample.undate_milk) = table Sample.one_todo
     ∧ (PUT_todos = POST_todos →
        step Sample.one_todo Sample.undate_milk = Sample.one_todo)).
Proof.
  apply (answers_by_route PUT_todos (env Sample.undate_milk)
           (request Sample.undate_milk) Sample.one_todo
           (step Sample.one_todo Sample.undate_milk) uncaught).
  reflexivity.
Defined.

(** ** What a request cannot reach *)

(** X3. In a reachable state, a request changes the [todos] of no user but
    the one its header resolves to; [POST /users] changes the [todos] of no
    stored user at all. *)
Theorem other_users_todos_untouched route env req s s' r v :
  reachable s →
  app route env req s = Some (s', r) →
  is_Some (users s !! v) →
  route = POST_users ∨ resolve req s ≠ Some v →
  todos_of s' v = todos_of s v.
Proof.
  intros Hwf%wf_reachable Hserved%app_served [uv Hv] Hother.
  assert (∀ u, route ≠ POST_users → resolve req s = Some u → v ≠ u) as Hne.
  { intros u Hroute Hres ->. by destruct Hother. }
  destruct Hserved as [route Hroute ?|?|?|u user ts ? ? ?|u user ? Huser ?
                      |u user ? Huser ?
                      |u user ? Huser ?|u user k l x ? Huser Hfirst ?
                      |u user k l x ? Huser Hfirst ?
                      |u user ? Huser ?|u user k l x ? Huser Hfirst
                      |u user ? ? ?|u user k l x ? Huser ?]; try done.
  - unfold todos_of. simpl. unfold Array.push.
    rewrite lookup_app_l by eauto using lookup_lt_Some. done.
  - eapply (todos_of_alloc s); [done| |done].
    rewrite with_user_lookup_ne; [done|]. by apply Hne.
  - apply todos_of_same; [|done]. by eapply table_with_user_same.
  - assert (v ≠ u) as Hvu by by apply Hne.
    destruct Hfirst as (Hk & _).
    rewrite !todos_of_table.
    replace (table (set_heap (<[l := retitled req x]> (heap s))
                      (with_user u (User.set_todo (Some l) user) s)))
      with (table s) by (symmetry; by eapply table_with_user_same).
    pose proof (todos_of_insert_other s u v user l (retitled req x)
                  Hwf Huser (list_elem_of_lookup_2 _ _ _ Hk) Hvu) as Hins.
    simpl. destruct (table s !! v); simpl in *; [|done]. congruence.
  - assert (v ≠ u) as Hvu by by apply Hne.
    destruct Hfirst as (Hk & _).
    rewrite !todos_of_table.
    replace (table (set_heap (<[l := updated req x]> (heap s))
                      (with_user u (User.set_todo (Some l) user) s)))
      with (table s) by (symmetry; by eapply table_with_user_same).
    pose proof (todos_of_insert_other s u v user l (updated req x)
                  Hwf Huser (list_elem_of_lookup_2 _ _ _ Hk) Hvu) as Hins.
    simpl. destruct (table s !! v); simpl in *; [|done]. congruence.
  - apply todos_of_same; [|done]. by eapply table_with_user_same.
  - assert (v ≠ u) as Hvu by by apply Hne.
    destruct Hfirst as (Hk & _).
    rewrite !todos_of_table.
    replace (table (set_heap (<[l := Todo.set_done true x]> (heap s))
                      (with_user u (User.set_todo (Some l) user) s)))
      with (table s) by (symmetry; by eapply table_with_user_same).
    pose proof (todos_of_insert_other s u v user l (Todo.set_done true x)
                  Hwf Huser (list_elem_of_lookup_2 _ _ _ Hk) Hvu) as Hins.
    simpl. destruct (table s !! v); simpl in *; [|done]. congruence.
  - unfold todos_of. rewrite with_user_lookup_ne; [done|]. by apply Hne.
Qed.

Lemma other_users_todos_untouched_witness :
  todos_of (step Sample.shared Sample.rename_milk) 1 = todos_of Sample.shared 1.
Proof.
  apply (other_users_todos_untouched PUT_todos (env Sample.rename_milk)
           (request Sample.rename_milk) Sample.shared
           (step Sample.shared Sample.rename_milk)
           (Response.mk 200
              (Response.todo
                 (Todo.mk "uuid-2" (Str "buy oat milk") false
                    (DateOf (Str "2024-03-01")) (DateNow 200)))) 1).
  - exists [Sample.signup_ana; Sample.signup_bob; Sample.add_milk;
            Sample.bob_adds_tea]. reflexivity.
  - reflexivity.
  - eexists. reflexivity.
  - right. vm_compute. discriminate.
Defined.

Lemma run_keeps_identity s es i user :
  users s !! i = Some user →
  ∃ user',
    users (run s es) !! i = Some user'
    ∧ User.id user' = User.id user
    ∧ User.name user' = User.name user
    ∧ User.username user' = User.username user.
Proof.
  revert s user. induction es as [|e es IH]; intros s user Hi; [by eauto|].
  assert (∃ user1, users (step s e) !! i = Some user1
                   ∧ User.id user1 = User.id user
                   ∧ User.name user1 = User.name user
                   ∧ User.username user1 = User.username user)
    as (user1 & Hi1 & Hid & Hname & Husername).
  { assert (∀ u user0 user1,
              users s !! u = Some user0 →
              User.id user1 = User.id user0 →
              User.name user1 = User.name user0 →
              User.username user1 = User.username user0 →
              ∃ user2, <[u := user1]> (users s) !! i = Some user2
                       ∧ User.id user2 = User.id user
                       ∧ User.name user2 = User.name user
                       ∧ User.username user2 = User.username user) as Hput.
    { intros u user0 user1 Hu ? ? ?. destruct (decide (u = i)) as [->|Hne].
      - exists user1. rewrite list_lookup_insert_eq
          by eauto using lookup_lt_Some.
        assert (user0 = user) as -> by congruence. done.
      - exists user. by rewrite list_lookup_insert_ne. }
    destruct (step_effect s e) as [|?|u user0 ?|u user0 ? ?|u user0 k l x ? ?
                                  |u user0 k l x ? ?|u user0 k l x ? ?
                                  |u user0 k l x ? ?];
      simpl; eauto.
    exists user. split; [|done]. unfold Array.push.
    by apply lookup_app_l_Some. }
  destruct (IH (step s e) user1 Hi1) as (user' & Hi' & ? & ? & ?).
  exists user'. simpl. split; [done|]. split_and!; congruence.
Qed.

(** X4. Users are never removed or moved, and the [id], [name] and [username]
    of a user never change: after any run, the user stored at a position is
    still stored there with these three fields as they were. *)
Theorem users_keep_identity s es i user :
  users s !! i = Some user →
  ∃ user',
    users (run s es) !! i = Some user'
    ∧ User.id user' = User.id user
    ∧ User.name user' = User.name user
    ∧ User.username user' = User.username user.
Proof. apply run_keeps_identity. Qed.

Lemma users_keep_identity_witness :
  ∃ user',
    users (run Sample.registered
             [Sample.add_milk; Sample.complete_milk; Sample.remove_milk])
      !! 0 = Some user'
    ∧ User.id user' = "uuid-1"
    ∧ User.name user' = Str "Ana"
    ∧ User.username user' = Str "ana".
Proof.
  apply (users_keep_identity Sample.registered
           [Sample.add_milk; Sample.complete_milk; Sample.remove_milk] 0
           (User.mk "uuid-1" (Str "Ana") (Str "ana") [] None)).
  reflexivity.
Defined.

(** X5. A request never removes a [Todo] object and never changes its [id]
    or [created_at].  Its [done] changes only when [PATCH /todos/:id/done]
    answers 200 for its identifier; its [deadline] only when [PUT /todos/:id]
    answers 200 for its identifier; its [title] only when [PUT /todos/:id]
    answers for its identifier 200 or, [new Date] having thrown after the
    assignment, 500. *)
Theorem todo_fields_change_by_their_route route env req s s' r l x :
  app route env req s = Some (s', r) →
  heap s !! l = Some x →
  ∃ x',
    heap s' !! l = Some x'
    ∧ Todo.id x' = Todo.id x
    ∧ Todo.created_at x' = Todo.created_at x
    ∧ (Todo.done x' ≠ Todo.done x →
       route = PATCH_todos_done ∧ Response.status r = 200
       ∧ Todo.id x = Params.id (Request.params req)
       ∧ Todo.done x' = true)
    ∧ (Todo.deadline x' ≠ Todo.deadline x →
       route = PUT_todos ∧ Response.status r = 200
       ∧ Todo.id x = Params.id (Request.params req)
       ∧ Todo.deadline x' = DateOf (Body.deadline (Request.body req)))
    ∧ (Todo.title x' ≠ Todo.title x →
       route = PUT_todos
       ∧ Response.status r = (if deadline_throws req then 500 else 200)
       ∧ Todo.id x = Params.id (Request.params req)
       ∧ Todo.title x' = Body.title (Request.body req)).
Proof.
  intros Hserved%app_served Hl.
  assert (l < length (heap s)) as Hlt by eauto using lookup_lt_Some.
  assert (∀ y, y = x →
            Todo.id y = Todo.id x
            ∧ Todo.created_at y = Todo.created_at x
            ∧ (Todo.done y ≠ Todo.done x →
               route = PATCH_todos_done ∧ Response.status r = 200
               ∧ Todo.id x = Params.id (Request.params req)
               ∧ Todo.done y = true)
            ∧ (Todo.deadline y ≠ Todo.deadline x →
               route = PUT_todos ∧ Response.status r = 200
               ∧ Todo.id x = Params.id (Request.params req)
               ∧ Todo.deadline y = DateOf (Body.deadline (Request.body req)))
            ∧ (Todo.title y ≠ Todo.title x →
               route = PUT_todos
               ∧ Response.status r = (if deadline_throws req then 500 else 200)
               ∧ Todo.id x = Params.id (Request.params req)
               ∧ Todo.title y = Body.title (Request.body req))) as Hsame.
  { intros y ->. split_and!; [done..| | |]; by intros []. }
  destruct Hserved as [route Hroute ?|?|?|u user ts ? ? ?|u user ? Huser ?
                      |u user ? Huser ?
                      |u user ? Huser ?
                      |u user k l' y ? Huser (_ & Hy & Hid & _) Hdate
                      |u user k l' y ? Huser (_ & Hy & Hid & _) Hdate
                      |u user ? Huser ?|u user k l' y ? Huser (_ & Hy & Hid & _)
                      |u user ? ? ?|u user k l' y ? Huser ?]; simpl.
  all: try (exists x; split; [done|]; by apply Hsame).
  - exists x. split; [by apply lookup_app_l_Some|]. by apply Hsame.
  - destruct (decide (l' = l)) as [->|Hne].
    + assert (y = x) as -> by congruence.
      exists (retitled req x). rewrite list_lookup_insert_eq by done.
      rewrite Hdate. split_and!; try done; by intros [].
    + exists x. rewrite list_lookup_insert_ne by done.
      split; [done|]. by apply Hsame.
  - destruct (decide (l' = l)) as [->|Hne].
    + assert (y = x) as -> by congruence.
      exists (updated req x). rewrite list_lookup_insert_eq by done.
      rewrite Hdate. split_and!; try done; by intros [].
    + exists x. rewrite list_lookup_insert_ne by done.
      split; [done|]. by apply Hsame.
  - destruct (decide (l' = l)) as [->|Hne].
    + assert (y = x) as -> by congruence.
      exists (Todo.set_done true x). rewrite list_lookup_insert_eq by done.
      split_and!; try done; by intros [].
    + exists x. rewrite list_lookup_insert_ne by done.
      split; [done|]. by apply Hsame.
Qed.

Lemma todo_fields_change_by_their_route_witness :
  ∃ x',
    heap (step Sample.one_todo Sample.undate_milk) !! 0 = Some x'
    ∧ Todo.id x' = "uuid-2"
    ∧ Todo.created_at x' = DateNow 200
    ∧ (Todo.done x' ≠ false →
       PUT_todos = PATCH_todos_done ∧ 500 = 200
       ∧ "uuid-2" = "uuid-2"
       ∧ Todo.done x' = true)
    ∧ (Todo.deadline x' ≠ DateOf (Str "2024-01-01") →
       PUT_todos = PUT_todos ∧ 500 = 200
       ∧ "uuid-2" = "uuid-2"
       ∧ Todo.deadline x' = DateOf (Object 0 [("toString", Null)]))
    ∧ (Todo.title x' ≠ Str "buy milk" →
       PUT_todos = PUT_todos
       ∧ 500 = (if deadline_throws (request Sample.undate_milk)
                then 500 else 200)
       ∧ "uuid-2" = "uuid-2"
       ∧ Todo.title x' = Str "buy soy milk").
Proof.
  apply (todo_fields_change_by_their_route (route Sample.undate_milk)
           (env Sample.undate_milk) (request Sample.undate_milk)
           Sample.one_todo (step Sample.one_todo Sample.undate_milk)
           uncaught 0
           (new_todo (env Sample.add_milk) (request Sample.add_milk))).
  - reflexivity.
  - reflexivity.
Defined.

(** ** Identifiers *)

Lemma ids_insert_user (us : list User.t) (u : nat) user user' :
  us !! u = Some user → User.id user' = User.id user →
  User.id <$> <[u := user']> us = User.id <$> us.
Proof.
  intros Hu Heq. rewrite list_fmap_insert, Heq.
  apply list_insert_id. by rewrite list_lookup_fmap, Hu.
Qed.

(** A request adds at most one identifier to the store: the one [uuidv4()]
    returned while it was served. *)
Lemma effect_issued env request s s' :
  effect env request s s' →
  issued s' = issued s ∨ issued s' ≡ₚ uuidv4 env :: issued s.
Proof.
  intros H. unfold issued.
  destruct H as [|?|v user Hv|v user Hv ?|v user k l x Hv (_ & Hx & _)
                |v user k l x Hv (_ & Hx & _)|v user k l x Hv (_ & Hx & _)
                |v user k l x Hv ?]; simpl;
    rewrite ?(ids_insert_user (users s) v user) by done.
  - by left.
  - right. unfold Array.push. rewrite fmap_app. simpl.
    rewrite <-app_assoc. simpl. by rewrite <-Permutation_middle.
  - right. rewrite fmap_app. simpl. rewrite app_assoc.
    by rewrite <-Permutation_cons_append.
  - by left.
  - left. by erewrite ids_insert.
  - left. by erewrite ids_insert.
  - left. by erewrite ids_insert.
  - by left.
Qed.

Lemma issued_nodup s es :
  NoDup (issued s ++ uuids es) → NoDup (issued (run s es)).
Proof.
  revert s. induction es as [|e es IH]; intros s Hnd; simpl in *.
  - by rewrite app_nil_r in Hnd.
  - apply IH. rewrite <-Permutation_middle in Hnd.
    destruct (effect_issued _ _ _ _ (step_effect s e)) as [->| ->].
    + by apply NoDup_cons in Hnd as [_ ?].
    + done.
Qed.

(** Reading distinct references into objects with distinct keys gives
    objects with distinct keys. *)
Lemma deref_nodup {K} (f : Todo.t → K) (h : list Todo.t) (ls : list loc) ts :
  NoDup ls → NoDup (f <$> h) →
  mapM (λ l, h !! l) ls = Some ts →
  NoDup (f <$> ts).
Proof.
  intros Hls Hh [Hlen Hall]%deref_Some. apply NoDup_alt. intros i j k Hi Hj.
  rewrite list_lookup_fmap in Hi, Hj.
  destruct (ts !! i) as [a|] eqn:Ha; simplify_eq/=.
  destruct (ts !! j) as [b|] eqn:Hb; simplify_eq/=.
  destruct (lookup_lt_is_Some_2 ls i) as [la Hla].
  { rewrite Hlen. eauto using lookup_lt_Some. }
  destruct (lookup_lt_is_Some_2 ls j) as [lb Hlb].
  { rewrite Hlen. eauto using lookup_lt_Some. }
  pose proof (Hall _ _ _ Hla Ha) as Hha.
  pose proof (Hall _ _ _ Hlb Hb) as Hhb.
  assert (la = lb) as ->.
  { eapply (NoDup_lookup (f <$> h)); [done|..];
      rewrite list_lookup_fmap; [by rewrite Hha|]. rewrite Hhb. simpl.
    by f_equal. }
  by apply (NoDup_lookup ls i j lb).
Qed.

Lemma heap_ids_nodup es :
  NoDup (uuids es) → NoDup (Todo.id <$> heap (run init es)).
Proof.
  intros Hnd. pose proof (issued_nodup init es Hnd) as Hissued.
  by apply NoDup_app in Hissued as (_ & _ & ?).
Qed.

(** X6. If [uuidv4()] never returns the same string twice during a run from
    the empty store, then in the state reached the identifiers of all users
    and of all [Todo] objects are pairwise distinct, and so are the
    identifiers of the [Todo]s in each user's [todos]. *)
Theorem identifiers_are_distinct es :
  NoDup (uuids es) →
  NoDup (issued (run init es))
  ∧ ∀ u ts, todos_of (run init es) u = Some ts → NoDup (Todo.id <$> ts).
Proof.
  intros Hnd. split; [by apply (issued_nodup init es)|].
  intros u ts (user & Huser & Hts)%bind_Some.
  eapply deref_nodup; [|by apply heap_ids_nodup|done].
  eapply (wf_nodup _ (wf_run init es wf_init) u).
  by apply table_lookup.
Qed.

Lemma identifiers_are_distinct_witness :
  NoDup (issued Sample.shared)
  ∧ ∀ u ts, todos_of Sample.shared u = Some ts → NoDup (Todo.id <$> ts).
Proof.
  apply (identifiers_are_distinct
           [Sample.signup_ana; Sample.signup_bob; Sample.add_milk;
            Sample.bob_adds_tea]).
  apply (bool_decide_unpack _). vm_compute. exact I.
Defined.

(** ** Creating, then using the identifier *)

Lemma delete_last {A} (l : list A) (x : A) n :
  n = length l → delete n (l ++ [x]) = l.
Proof.
  intros ->. rewrite delete_take_drop, take_app_length.
  rewrite drop_ge by (rewrite length_app; simpl; lia).
  by rewrite app_nil_r.
Qed.

Lemma delete_not_elem_of {A} (l : list A) k x :
  NoDup l → l !! k = Some x → x ∉ delete k l.
Proof.
  intros Hnd Hk. rewrite delete_take_drop.
  rewrite <-(take_drop_middle l k x Hk) in Hnd.
  apply NoDup_app in Hnd as (_ & Hleft & [Hright _]%NoDup_cons).
  intros [Hin|Hin]%elem_of_app; [|done].
  apply (Hleft x Hin). apply list_elem_of_here.
Qed.

(** X7. After a run from the empty store, when the identifier [uuidv4()]
    returns was not returned during the run and [new Date] does not throw on
    the [deadline] of the request, the [Todo] that [POST /todos] creates for a
    resolved user is the one this identifier addresses: it is the first, at
    the last position, to carry it.  A [DELETE /todos/:id] of that user with
    this identifier then answers 204 and leaves the user's [todos] as they
    were before the creation. *)
Theorem created_id_addresses_new_todo es env req u :
  uuidv4 env ∉ uuids es →
  resolve req (run init es) = Some u →
  deadline_throws req = false →
  ∃ ts s' user',
    todos_of (run init es) u = Some ts
    ∧ app POST_todos env req (run init es)
      = Some (s', Response.mk 201 (Response.todo (new_todo env req)))
    ∧ users s' !! u = Some user'
    ∧ id_first_at s' user' (uuidv4 env) (length ts)
        (length (heap (run init es))) (new_todo env req)
    ∧ ∀ en rq,
        resolve rq s' = Some u →
        Params.id (Request.params rq) = uuidv4 env →
        ∃ s'',
          app DELETE_todos en rq s'
          = Some (s'', Response.mk 204 Response.empty)
          ∧ todos_of s'' u = Some ts.
Proof.
  intros Hfresh Hres Hdate. set (s := run init es) in *.
  assert (wf s) as Hwf by apply wf_run, wf_init.
  pose proof Hres as (user & Huser & _)%resolve_Some.
  destruct (todos_of_is_Some s u user Hwf Huser) as [ts Hts].
  pose proof Hts as [Hlen Hall]%deref_Some.
  set (user' := User.set_todos
                  (Array.push (length (heap s)) (User.todos user)) user).
  set (s' := with_user u user'
               (set_heap (heap s ++ [new_todo env req]) s)).
  assert (users s' !! u = Some user') as Huser'
    by by apply (with_user_lookup (set_heap _ s) u user).
  assert (id_first_at s' user' (uuidv4 env) (length ts) (length (heap s))
            (new_todo env req)) as Hfirst.
  { split_and!.
    - simpl. unfold Array.push. rewrite <-Hlen. by apply list_lookup_middle.
    - simpl. by apply list_lookup_middle.
    - done.
    - intros j l' y Hj Hl' Hy Hid. apply Hfresh.
      simpl in Hl'. unfold Array.push in Hl'.
      rewrite lookup_app_l in Hl' by lia.
      assert (l' < length (heap s)) as Hlt.
      { eapply (wf_alloc s Hwf u);
          eauto using table_lookup, list_elem_of_lookup_2. }
      simpl in Hy. rewrite lookup_app_l in Hy by done.
      apply list_elem_of_lookup_2, (run_ids init es) in Hy.
      simpl in Hy. by rewrite <-Hid. }
  exists ts, s', user'. split_and!; try done.
  - by rewrite (todos_of_user _ _ user).
  - rewrite app_guarded, Hres by done. simpl.
    by rewrite (post_todos_exec env (Request.set_user u req) s u user
                  eq_refl Huser Hdate).
  - intros en rq Hrq Hid. eexists.
    rewrite app_guarded, Hrq by done. simpl. rewrite <-Hid in Hfirst.
    rewrite (delete_todos_found en (Request.set_user u rq) s' u user'
               eq_refl Huser' _ _ _ Hfirst).
    split; [done|].
    erewrite todos_of_user by by eapply with_user_lookup.
    simpl. unfold Array.push. rewrite delete_last by done.
    by apply deref_alloc.
Qed.

Lemma created_id_addresses_new_todo_witness :
  ∃ ts s' user',
    todos_of Sample.one_todo 0 = Some ts
    ∧ app POST_todos (env Sample.add_bread) (request Sample.add_bread)
        Sample.one_todo
      = Some (s', Response.mk 201
                    (Response.todo
                       (new_todo (env Sample.add_bread)
                          (request Sample.add_bread))))
    ∧ users s' !! 0 = Some user'
    ∧ id_first_at s' user' "uuid-3" (length ts) (length (heap Sample.one_todo))
        (new_todo (env Sample.add_bread) (request Sample.add_bread))
    ∧ ∀ en rq,
        resolve rq s' = Some 0 →
        Params.id (Request.params rq) = "uuid-3" →
        ∃ s'',
          app DELETE_todos en rq s'
          = Some (s'', Response.mk 204 Response.empty)
          ∧ todos_of s'' 0 = Some ts.
Proof.
  apply (created_id_addresses_new_todo [Sample.signup_ana; Sample.add_milk]
           (env Sample.add_bread) (request Sample.add_bread) 0).
  - apply (bool_decide_unpack _). vm_compute. exact I.
  - reflexivity.
  - reflexivity.
Defined.

(** X8. When [uuidv4()] returned no string twice during a run from the empty
    store, an identifier that [DELETE /todos/:id] has removed for a user is
    gone for that user: [PUT], [PATCH] and [DELETE] with it then answer
    404. *)
Theorem deleted_id_is_gone es en req u s' r route' en' req' :
  NoDup (uuids es) →
  resolve req (run init es) = Some u →
  app DELETE_todos en req (run init es) = Some (s', r) →
  Response.status r = 204 →
  route' = PUT_todos ∨ route' = PATCH_todos_done ∨ route' = DELETE_todos →
  resolve req' s' = Some u →
  Params.id (Request.params req') = Params.id (Request.params req) →
  ∃ s'' r',
    app route' en' req' s' = Some (s'', r') ∧ Response.status r' = 404.
Proof.
  intros Hnd Hres Hserved%app_served Hstatus Hroute Hres' Hid.
  set (s := run init es) in *.
  assert (wf s) as Hwf by apply wf_run, wf_init.
  inversion Hserved
    as [| | | | | | | | | | |? ? ? ? ?|u0 user k l x Hres0 Huser Hfirst];
    subst; try done.
  assert (u0 = u) as -> by congruence. clear Hres0.
  set (user' := User.set_todos (delete k (User.todos user)) user) in *.
  assert (users (with_user u user' s) !! u = Some user') as Huser'
    by by eapply with_user_lookup.
  destruct Hfirst as (Hk & Hx & Hidx & _).
  assert (id_absent (with_user u user' s) user'
            (Params.id (Request.params req'))) as Habs.
  { intros l' y Hl' Hy Hidy. simpl in Hl', Hy.
    assert (l' = l) as ->.
    { eapply (NoDup_lookup (Todo.id <$> heap s)); [by apply heap_ids_nodup|..];
        rewrite list_lookup_fmap; [by rewrite Hy|].
      rewrite Hx. simpl. f_equal. congruence. }
    apply (delete_not_elem_of (User.todos user) k l); [|done..].
    apply (wf_nodup s Hwf u). by apply table_lookup. }
  destruct Hroute as [->|[->| ->]];
    rewrite app_guarded, Hres' by done; simpl.
  - rewrite (put_todos_missing en' (Request.set_user u req') _ u user'
               eq_refl Huser' Habs). by eexists _, _.
  - rewrite (patch_todos_done_missing en' (Request.set_user u req') _ u user'
               eq_refl Huser' Habs). by eexists _, _.
  - rewrite (delete_todos_missing en' (Request.set_user u req') _ u user'
               eq_refl Huser' Habs). by eexists _, _.
Qed.

Lemma deleted_id_is_gone_witness :
  ∃ s'' r',
    app PATCH_todos_done Sample.later (Sample.by_ana empty_body "uuid-2")
      (step Sample.two_todos Sample.remove_milk) = Some (s'', r')
    ∧ Response.status r' = 404.
Proof.
  apply (deleted_id_is_gone
           [Sample.signup_ana; Sample.add_milk; Sample.add_bread]
           (env Sample.remove_milk) (request Sample.remove_milk) 0
           (step Sample.two_todos Sample.remove_milk)
           (Response.mk 204 Response.empty)
           PATCH_todos_done Sample.later (Sample.by_ana empty_body "uuid-2")).
  - apply (bool_decide_unpack _). vm_compute. exact I.
  - reflexivity.
  - reflexivity.
  - reflexivity.
  - auto.
  - reflexivity.
  - reflexivity.
Defined.

(** ** Requests one after the other *)

(** X9. [PUT /todos/:id] is idempotent, whether it succeeds or [new Date]
    throws: for a resolved user and an identifier carried by one of the user's
    [Todo]s it answers 200, or 500 when [new Date] throws, and the same
    request served a second time gives the same answer and leaves the state as
    the first call left it. *)
Theorem update_idempotent env env' req s u user :
  resolve req s = Some u →
  users s !! u = Some user →
  (∃ l x, l ∈ User.todos user ∧ heap s !! l = Some x
          ∧ Todo.id x = Params.id (Request.params req)) →
  ∃ s' r,
    app PUT_todos env req s = Some (s', r)
    ∧ Response.status r = (if deadline_throws req then 500 else 200)
    ∧ app PUT_todos env' req s' = Some (s', r).
Proof.
  intros Hres Huser (l0 & x0 & Hl0 & Hx0 & Hid0).
  destruct (id_present_first s user (Params.id (Request.params req)) l0 x0)
    as (k & l & x & Hfirst); [done..|].
  pose proof Hfirst as (Hk & Hx & Hid & _).
  assert (l < length (heap s)) as Hlt by eauto using lookup_lt_Some.
  assert (Todo.id (put_leaves req x) = Todo.id x) as Hsame_id
    by (unfold put_leaves; by destruct (deadline_throws req)).
  assert (put_leaves req (put_leaves req x) = put_leaves req x) as Hagain
    by (unfold put_leaves; by destruct (deadline_throws req)).
  set (user' := User.set_todo (Some l) user).
  set (s' := set_heap (<[l := put_leaves req x]> (heap s))
               (with_user u user' s)).
  exists s', (if deadline_throws req then uncaught
              else Response.json (Response.todo (put_leaves req x))).
  split_and!.
  - rewrite app_guarded, Hres by done. simpl.
    by rewrite (put_todos_present env (Request.set_user u req) s u user
                  eq_refl Huser k l x Hfirst).
  - by destruct (deadline_throws req).
  - assert (resolve req s' = Some u) as Hres'.
    { rewrite <-Hres. apply resolve_usernames. subst s'. simpl.
      by eapply usernames_with_user. }
    assert (users s' !! u = Some user') as Huser'
      by by eapply with_user_lookup.
    assert (heap s' !! l = Some (put_leaves req x)) as Hx'
      by by apply list_lookup_insert_eq.
    assert (id_first_at s' user' (Params.id (Request.params req)) k l
              (put_leaves req x)) as Hfirst'.
    { eapply id_first_at_ids; [done| |done..]. by eapply ids_insert. }
    rewrite app_guarded, Hres' by done. simpl.
    rewrite (put_todos_present env' (Request.set_user u req) s' u user'
               eq_refl Huser' k l _ Hfirst').
    change (deadline_throws (Request.set_user u req))
      with (deadline_throws req).
    change (put_leaves (Request.set_user u req)) with (put_leaves req).
    rewrite Hagain. do 2 f_equal.
    subst s'. unfold set_heap, with_user, set_users. simpl.
    by rewrite !list_insert_insert_eq.
Qed.

Lemma update_idempotent_witness :
  ∃ s' r,
    app PUT_todos (env Sample.undate_milk) (request Sample.undate_milk)
      Sample.two_todos = Some (s', r)
    ∧ Response.status r
      = (if deadline_throws (request Sample.undate_milk) then 500 else 200)
    ∧ app PUT_todos Sample.later (request Sample.undate_milk) s' = Some (s', r).
Proof.
  apply (update_idempotent (env Sample.undate_milk) Sample.later
           (request Sample.undate_milk) Sample.two_todos 0
           (User.mk "uuid-1" (Str "Ana") (Str "ana") [0; 1] None)).
  - reflexivity.
  - reflexivity.
  - exists 0, (new_todo (env Sample.add_milk) (request Sample.add_milk)).
    split; [|split; reflexivity]. apply list_elem_of_here.
Defined.

(** X10. Updating and completing the same [Todo] commute, also when
    [new Date] throws in the update: [PUT] followed by [PATCH] with the same
    identifier leaves the state that [PATCH] followed by [PUT] leaves.  In it
    the [Todo] is [done] and carries the new [title]; it carries the new
    [deadline] when [PUT] answered 200, and the [deadline] it had when
    [new Date] threw and [PUT] answered 500. *)
Theorem update_and_complete_commute env env' req s u user :
  resolve req s = Some u →
  users s !! u = Some user →
  (∃ l x, l ∈ User.todos user ∧ heap s !! l = Some x
          ∧ Todo.id x = Params.id (Request.params req)) →
  ∃ k l x s1 s2 t r1 r2 r12 r21,
    id_first_at s user (Params.id (Request.params req)) k l x
    ∧ app PUT_todos env req s = Some (s1, r1)
    ∧ app PATCH_todos_done env' req s1 = Some (t, r12)
    ∧ app PATCH_todos_done env' req s = Some (s2, r2)
    ∧ app PUT_todos env req s2 = Some (t, r21)
    ∧ Response.status r1 = (if deadline_throws req then 500 else 200)
    ∧ Response.status r21 = Response.status r1
    ∧ heap t !! l
      = Some (Todo.set_done true
                (if deadline_throws req then retitled req x
                 else updated req x)).
Proof.
  intros Hres Huser (l0 & x0 & Hl0 & Hx0 & Hid0).
  destruct (id_present_first s user (Params.id (Request.params req)) l0 x0)
    as (k & l & x & Hfirst); [done..|].
  pose proof Hfirst as (Hk & Hx & Hid & _).
  assert (l < length (heap s)) as Hlt by eauto using lookup_lt_Some.
  assert (Todo.id (put_leaves req x) = Todo.id x) as Hsame_id
    by (unfold put_leaves; by destruct (deadline_throws req)).
  assert (put_leaves req (Todo.set_done true x)
          = Todo.set_done true (put_leaves req x)) as Hcomm
    by (unfold put_leaves; by destruct (deadline_throws req)).
  set (user' := User.set_todo (Some l) user).
  set (s1 := set_heap (<[l := put_leaves req x]> (heap s))
               (with_user u user' s)).
  set (s2 := set_heap (<[l := Todo.set_done true x]> (heap s))
               (with_user u user' s)).
  set (t := set_heap (<[l := Todo.set_done true (put_leaves req x)]> (heap s))
              (with_user u user' s)).
  assert (∀ h, resolve req (set_heap h (with_user u user' s)) = Some u)
    as Hres'.
  { intros h. rewrite <-Hres. apply resolve_usernames. simpl.
    by eapply usernames_with_user. }
  assert (∀ h, users (set_heap h (with_user u user' s)) !! u = Some user')
    as Huser' by (intros h; by eapply with_user_lookup).
  assert (∀ y, Todo.id y = Todo.id x →
            id_first_at (set_heap (<[l := y]> (heap s)) (with_user u user' s))
              user' (Params.id (Request.params req)) k l y) as Hfirst'.
  { intros y Hy. eapply id_first_at_ids; [done| | |done].
    - by eapply ids_insert.
    - by apply list_lookup_insert_eq. }
  exists k, l, x, s1, s2, t.
  exists (if deadline_throws req then uncaught
          else Response.json (Response.todo (put_leaves req x))).
  eexists _, _.
  exists (if deadline_throws req then uncaught
          else Response.json
                 (Response.todo (Todo.set_done true (put_leaves req x)))).
  split; [done|]. split.
  { rewrite app_guarded, Hres by done. simpl.
    by rewrite (put_todos_present env (Request.set_user u req) s u user
                  eq_refl Huser k l x Hfirst). }
  split.
  { rewrite app_guarded. 2: done. subst s1. rewrite Hres'. simpl.
    rewrite (patch_todos_done_found env' (Request.set_user u req) _ u user'
               eq_refl (Huser' _) k l _ (Hfirst' (put_leaves req x) Hsame_id)).
    do 2 f_equal. subst t. unfold set_heap, with_user, set_users. simpl.
    by rewrite !list_insert_insert_eq. }
  split.
  { rewrite app_guarded, Hres by done. simpl.
    by rewrite (patch_todos_done_found env' (Request.set_user u req) s u user
                  eq_refl Huser k l x Hfirst). }
  split.
  { rewrite app_guarded. 2: done. subst s2. rewrite Hres'. simpl.
    rewrite (put_todos_present env (Request.set_user u req) _ u user'
               eq_refl (Huser' _) k l _ (Hfirst' (Todo.set_done true x) eq_refl)).
    change (deadline_throws (Request.set_user u req))
      with (deadline_throws req).
    change (put_leaves (Request.set_user u req)) with (put_leaves req).
    rewrite Hcomm. do 2 f_equal.
    subst t. unfold set_heap, with_user, set_users. simpl.
    by rewrite !list_insert_insert_eq. }
  split; [by destruct (deadline_throws req)|].
  split; [by destruct (deadline_throws req)|].
  subst t. simpl. by apply list_lookup_insert_eq.
Qed.

Lemma update_and_complete_commute_witness :
  ∃ k l x s1 s2 t r1 r2 r12 r21,
    id_first_at Sample.one_todo
      (User.mk "uuid-1" (Str "Ana") (Str "ana") [0] None) "uuid-2" k l x
    ∧ app PUT_todos Sample.later (request Sample.undate_milk) Sample.one_todo
      = Some (s1, r1)
    ∧ app PATCH_todos_done Sample.later (request Sample.undate_milk) s1
      = Some (t, r12)
    ∧ app PATCH_todos_done Sample.later (request Sample.undate_milk)
        Sample.one_todo = Some (s2, r2)
    ∧ app PUT_todos Sample.later (request Sample.undate_milk) s2
      = Some (t, r21)
    ∧ Response.status r1
      = (if deadline_throws (request Sample.undate_milk) then 500 else 200)
    ∧ Response.status r21 = Response.status r1
    ∧ heap t !! l
      = Some (Todo.set_done true
                (if deadline_throws (request Sample.undate_milk)
                 then retitled (request Sample.undate_milk) x
                 else updated (request Sample.undate_milk) x)).
Proof.
  apply (update_and_complete_commute Sample.later Sample.later
           (request Sample.undate_milk) Sample.one_todo 0
           (User.mk "uuid-1" (Str "Ana") (Str "ana") [0] None)).
  - reflexivity.
  - reflexivity.
  - exists 0, (new_todo (env Sample.add_milk) (request Sample.add_milk)).
    split; [|split; reflexivity]. apply list_elem_of_here.
Defined.

(** ** Registering, then acting *)

Lemma run_usernames s es :
  ∃ more,
    User.username <$> users (run s es) = (User.username <$> users s) ++ more.
Proof.
  revert s. induction es as [|e es IH]; intros s.
  - exists []. by rewrite app_nil_r.
  - destruct (IH (step s e)) as [more Hmore]. simpl. rewrite Hmore.
    destruct (effect_usernames _ _ _ _ (step_effect s e)) as [->|[_ ->]].
    + by exists more.
    + rewrite fmap_app, <-app_assoc. by eexists.
Qed.

Lemma find_pos_app_l {A} (p : A → bool) (l k : list A) i :
  Array.find_pos p l = Some i → Array.find_pos p (l ++ k) = Some i.
Proof.
  unfold Array.find_pos.
  intros ([j x] & Hfind & ->)%fmap_Some.
  by rewrite (list_find_app_l _ l k j x Hfind).
Qed.

(** X11. A user registered under a string username can act from then on:
    after [POST /users] has answered 201, and after any further run, a request
    whose [username] header holds that string resolves to the position at
    which the user was stored, where the user still has the [id] that
    [uuidv4()] returned and the [name] and [username] of the body. *)
Theorem registered_user_resolves env req s h es rq :
  Body.username (Request.body req) = Str h →
  ¬ username_taken s (Str h) →
  Headers.username (Request.headers rq) = Some h →
  ∃ s1 user,
    app POST_users env req s
    = Some (s1, Response.mk 201 (Response.user (new_user env req)))
    ∧ resolve rq (run s1 es) = Some (length (users s))
    ∧ users (run s1 es) !! length (users s) = Some user
    ∧ User.id user = uuidv4 env
    ∧ User.name user = Body.name (Request.body req)
    ∧ User.username user = Str h.
Proof.
  intros Hbody Hfree Hheader.
  set (s1 := set_users (Array.push (new_user env req) (users s)) s).
  assert (users s1 !! length (users s) = Some (new_user env req)) as Hnew.
  { subst s1. simpl. unfold Array.push. by rewrite list_lookup_middle. }
  destruct (run_keeps_identity s1 es _ _ Hnew)
    as (user & Huser & Hid & Hname & Husername).
  exists s1, user. split_and!; try done.
  - apply post_users_free. by rewrite Hbody.
  - unfold resolve. rewrite Hheader. simpl.
    pose proof (find_pos_fmap User.username (λ n, strict_eq n (Str h))) as Hf.
    unfold compose in Hf. rewrite <-Hf.
    destruct (run_usernames s1 es) as [more ->].
    apply find_pos_app_l. rewrite Hf. apply find_pos_Some.
    exists (new_user env req). split_and!; [done|..].
    + simpl. rewrite Hbody. apply strict_eq_refl_str.
    + intros j y Hy Hj. subst s1. simpl in Hy. unfold Array.push in Hy.
      rewrite lookup_app_l in Hy by done.
      destruct (strict_eq (User.username y) (Str h)) eqn:E; [|done].
      destruct Hfree. exists y. eauto using list_elem_of_lookup_2.
  - by rewrite Husername; simpl.
Qed.

Lemma registered_user_resolves_witness :
  ∃ s1 user,
    app POST_users (env Sample.signup_bob) (request Sample.signup_bob)
      Sample.one_todo
    = Some (s1, Response.mk 201
                  (Response.user
                     (new_user (env Sample.signup_bob)
                        (request Sample.signup_bob))))
    ∧ resolve (incoming (Some "bob") empty_body "")
        (run s1 [Sample.bob_adds_tea; Sample.complete_milk])
      = Some (length (users Sample.one_todo))
    ∧ users (run s1 [Sample.bob_adds_tea; Sample.complete_milk])
        !! length (users Sample.one_todo) = Some user
    ∧ User.id user = "uuid-5"
    ∧ User.name user = Str "Bob"
    ∧ User.username user = Str "bob".
Proof.
  apply (registered_user_resolves (env Sample.signup_bob)
           (request Sample.signup_bob) Sample.one_todo "bob"
           [Sample.bob_adds_tea; Sample.complete_milk]
           (incoming (Some "bob") empty_body "")).
  - reflexivity.
  - intros [? H]%username_taken_find. vm_compute in H. discriminate H.
  - reflexivity.
Defined.

Lemma resolve_matchable req s u user :
  resolve req s = Some u → users s !! u = Some user →
  ¬ unmatchable (User.username user).
Proof.
  intros (user' & Hu & Heq%strict_eq_header)%resolve_Some Huser.
  assert (user' = user) as -> by congruence. rewrite Heq.
  destruct (Headers.username (Request.headers req)); simpl; by intros [].
Qed.

(** A user whose username no header can match has an empty [todos] and no
    [todo] property. *)
Lemma served_keeps_idle env req s route s' r :
  served env req s route s' r →
  (∀ u user, users s !! u = Some user → unmatchable (User.username user) →
     User.todos user = [] ∧ User.todo user = None) →
  ∀ u user, users s' !! u = Some user → unmatchable (User.username user) →
    User.todos user = [] ∧ User.todo user = None.
Proof.
  intros Hserved Hinv.
  assert (∀ u0 user0 user1 u user,
            resolve req s = Some u0 → users s !! u0 = Some user0 →
            User.username user1 = User.username user0 →
            <[u0 := user1]> (users s) !! u = Some user →
            unmatchable (User.username user) →
            User.todos user = [] ∧ User.todo user = None) as Hput.
  { intros u0 user0 user1 u user Hres Hu0 Hname Hu Hun.
    apply list_lookup_insert_Some in Hu as [(-> & <- & _)|[_ Hu]]; [|by eauto].
    destruct (resolve_matchable req s u user0 Hres Hu0). by rewrite <-Hname. }
  destruct Hserved as [route Hroute ?|?|?|u0 user0 ts Hres0 Hu0 ?
                      |u0 user0 Hres0 Hu0 ?|u0 user0 Hres0 Hu0 ?
                      |u0 user0 Hres0 Hu0 ?|u0 user0 k l x Hres0 Hu0 ? ?
                      |u0 user0 k l x Hres0 Hu0 ? ?
                      |u0 user0 Hres0 Hu0 ?|u0 user0 k l x Hres0 Hu0 ?
                      |u0 user0 Hres0 Hu0 ?|u0 user0 k l x Hres0 Hu0 ?];
    simpl; try done; intros u user Hu Hun;
    try (by refine (Hput u0 user0 _ u user Hres0 Hu0 _ Hu Hun)).
  unfold Array.push in Hu.
  apply lookup_snoc_Some in Hu as [[_ Hu]|[_ <-]]; [by eauto|done].
Qed.

Lemma run_keeps_idle s es :
  (∀ u user, users s !! u = Some user → unmatchable (User.username user) →
     User.todos user = [] ∧ User.todo user = None) →
  ∀ u user, users (run s es) !! u = Some user →
    unmatchable (User.username user) →
    User.todos user = [] ∧ User.todo user = None.
Proof.
  revert s. induction es as [|e es IH]; intros s Hinv; [done|].
  simpl. apply IH. unfold step.
  destruct (app (route e) (env e) (request e) s) as [[s' r]|] eqn:Happ;
    [|exact Hinv].
  eapply served_keeps_idle; [by apply app_served|exact Hinv].
Qed.

(** X12. A user registered with a username that is neither a string nor
    absent (a number, [null], a boolean, an array or an object) can never act:
    after any run from the empty store no request resolves to that user, whose
    [todos] is empty and on whom the property [todo] was never assigned. *)
Theorem unmatchable_user_owns_nothing es u user :
  users (run init es) !! u = Some user →
  unmatchable (User.username user) →
  User.todos user = [] ∧ User.todo user = None
  ∧ ∀ req, resolve req (run init es) ≠ Some u.
Proof.
  intros Hu Hun.
  destruct (run_keeps_idle init es) with (u := u) (user := user)
    as [Htodos Htodo]; [|done..|].
  { intros v user' Hv. simpl in Hv. by rewrite lookup_nil in Hv. }
  split_and!; [done..|].
  intros req Hres. by destruct (resolve_matchable req _ u user Hres Hu).
Qed.

Lemma unmatchable_user_owns_nothing_witness :
  @nil loc = [] ∧ @None (option loc) = None
  ∧ ∀ req, resolve req (run init [Sample.signup_seven; Sample.add_milk])
           ≠ Some 0.
Proof.
  apply (unmatchable_user_owns_nothing [Sample.signup_seven; Sample.add_milk] 0
           (User.mk "uuid-8" (Str "Seven") (Number PrimFloat.one) [] None)).
  - reflexivity.
  - exact I.
Defined.

(** ** The alias [user.todo] *)

(** X13. [DELETE /todos/:id] does not touch the property [todo] of the user:
    in a reachable state, after a [Todo] is deleted the property holds what it
    held, the deleted reference is no longer in [todos], and the [Todo] object
    it leads to is as it was.  So a [todo] assigned by an earlier [PUT] or
    [PATCH] keeps referring to a [Todo] that is no longer listed. *)
Theorem delete_keeps_todo_property env req s u user :
  reachable s →
  resolve req s = Some u →
  users s !! u = Some user →
  (∃ l x, l ∈ User.todos user ∧ heap s !! l = Some x
          ∧ Todo.id x = Params.id (Request.params req)) →
  ∃ k l x s' user',
    id_first_at s user (Params.id (Request.params req)) k l x
    ∧ app DELETE_todos env req s = Some (s', Response.mk 204 Response.empty)
    ∧ users s' !! u = Some user'
    ∧ User.todo user' = User.todo user
    ∧ (l ∉ User.todos user')
    ∧ heap s' !! l = Some x.
Proof.
  intros Hwf%wf_reachable Hres Huser (l0 & x0 & Hl0 & Hx0 & Hid0).
  destruct (id_present_first s user (Params.id (Request.params req)) l0 x0)
    as (k & l & x & Hfirst); [done..|].
  pose proof Hfirst as (Hk & Hx & _).
  exists k, l, x. eexists _, _. split; [done|].
  rewrite app_guarded, Hres by done. simpl.
  rewrite (delete_todos_found env (Request.set_user u req) s u user
             eq_refl Huser k l x Hfirst).
  split_and!; [done|by eapply with_user_lookup|done| |done].
  simpl. apply delete_not_elem_of; [|done].
  apply (wf_nodup s Hwf u). by apply table_lookup.
Qed.

Lemma delete_keeps_todo_property_witness :
  ∃ k l x s' user',
    id_first_at Sample.milk_done
      (User.mk "uuid-1" (Str "Ana") (Str "ana") [0] (Some (Some 0)))
      "uuid-2" k l x
    ∧ app DELETE_todos Sample.later (Sample.by_ana empty_body "uuid-2")
        Sample.milk_done
      = Some (s', Response.mk 204 Response.empty)
    ∧ users s' !! 0 = Some user'
    ∧ User.todo user' = Some (Some 0)
    ∧ (l ∉ User.todos user')
    ∧ heap s' !! l = Some x.
Proof.
  apply (delete_keeps_todo_property Sample.later
           (Sample.by_ana empty_body "uuid-2") Sample.milk_done 0
           (User.mk "uuid-1" (Str "Ana") (Str "ana") [0] (Some (Some 0)))).
  - exists [Sample.signup_ana; Sample.add_milk; Sample.complete_milk].
    reflexivity.
  - reflexivity.
  - reflexivity.
  - exists 0, (Todo.set_done true
                 (new_todo (env Sample.add_milk) (request Sample.add_milk))).
    split; [|split; reflexivity]. apply list_elem_of_here.
Defined.
